(** * parse-pdf: the extraction pipeline of [main.py], embedded and verified

    The development follows [main.py] top to bottom:

    - Python values the pipeline touches: [str] as a list of Unicode code
      points, exceptions with their class name and [str(e)] text, results of
      fallible calls, binary64 floats (the Standard Library's [SpecFloat]);
    - [is_relevant_image], with Python's true division of integers;
    - the state the pipeline threads (the outside world of the vision
      model, the disk under the cache directory, a ghost log of the
      analyzer calls) and a small state-and-exception monad over it;
    - [FileCache], [ClaudeClient], [get_pdf_hash] and [parse_pdf];
    - the properties of the specification, one theorem per claim. *)

From Stdlib Require Import ZArith Bool Ascii String DecimalString.
From Stdlib Require Import Floats.SpecFloat.
From stdpp Require Import base option list gmap.

Local Open Scope Z_scope.

(** ** Python strings

    A Python [str] is a sequence of Unicode code points; [bytes] is a
    sequence of octets.  Literals of the source are all ASCII and are
    written [lit "..."]. *)

Definition pystr : Type := list N.
Definition bytes : Type := list Byte.byte.

Definition lit (s : string) : pystr :=
  map N_of_ascii (list_ascii_of_string s).

(** The line feed of the source's ["\n"]. *)
Definition nl : pystr := [10%N].

(** [str(n)] for a Python [int]. *)
Definition str_of_int (n : Z) : pystr :=
  lit (NilZero.string_of_int (Z.to_int n)).

(** [str.isspace] on one code point: the code points CPython's
    [_PyUnicode_IsWhitespace] accepts. *)
Definition isspace (c : N) : bool :=
  ((9 <=? c) && (c <=? 13) || (28 <=? c) && (c <=? 32)
   || (c =? 133) || (c =? 160) || (c =? 5760)
   || (8192 <=? c) && (c <=? 8202)
   || (c =? 8232) || (c =? 8233) || (c =? 8239) || (c =? 8287)
   || (c =? 12288))%N.

Fixpoint lstrip (s : pystr) : pystr :=
  match s with
  | c :: s' => if isspace c then lstrip s' else s
  | [] => []
  end.

Definition rstrip (s : pystr) : pystr := rev (lstrip (rev s)).

(** [s.strip()] with no argument. *)
Definition strip (s : pystr) : pystr := rstrip (lstrip s).

(** [str.upper], on the ASCII letters (the source applies it to the three
    format names only). *)
Definition upper (s : pystr) : pystr :=
  map (fun c => if ((97 <=? c) && (c <=? 122))%N then (c - 32)%N else c) s.

(** [os.path.join] of two components on a POSIX system. *)
Definition os_path_join (a b : pystr) : pystr :=
  match b with
  | 47%N :: _ => b
  | _ =>
      match last a with
      | None => b
      | Some 47%N => a ++ b
      | Some _ => a ++ lit "/" ++ b
      end
  end.

(** ** Exceptions and results

    An [exn] is an instance of a subclass of Python's [Exception]: its class
    name and the text [str(e)] gives. *)

Inductive exn : Type :=
  | Exception (cls : string) (msg : pystr).

Definition str_of_exn (e : exn) : pystr :=
  match e with Exception _ msg => msg end.

Inductive result (A : Type) : Type :=
  | Ok (a : A)
  | Raise (e : exn).
Arguments Ok {A} a.
Arguments Raise {A} e.

Definition KeyError (key : string) : exn :=
  Exception "KeyError" (lit "'" ++ lit key ++ lit "'").
Definition ZeroDivisionError : exn :=
  Exception "ZeroDivisionError" (lit "division by zero").
Definition OverflowError : exn :=
  Exception "OverflowError" (lit "integer division result too large for a float").

(** ** Floats and true division

    A Python [float] is an IEEE 754 binary64 number. *)

Module Float.

Definition prec : Z := 53.
Definition emax : Z := 1024.

Definition float : Type := spec_float.

Definition zero : float := S754_zero false.

(** The literals [0.8] and [1.2]: the doubles nearest to 4/5 and 6/5. *)
Definition lit_0_8 : float := S754_finite false 7205759403792794 (-53).
Definition lit_1_2 : float := S754_finite false 5404319552844595 (-52).

(** [x <= y] on floats. *)
Definition le (x y : float) : bool := SFleb x y.

(** The quotient [a / b] of two positive integers, correctly rounded to
    the nearest double (ties to even), with the sign [s]. *)
Definition div_round (s : bool) (a b : positive) : float :=
  let '(mz, ez, lz) := SFdiv_core_binary prec emax (Zpos a) 0 (Zpos b) 0 in
  binary_round_aux prec emax s mz ez lz.

Definition is_negative (z : Z) : bool := z <? 0.

(** [a / b] on Python integers: [ZeroDivisionError] when [b] is zero,
    the correctly rounded quotient otherwise, [OverflowError] when that
    is beyond the range of a double. *)
Definition truediv (a b : Z) : result float :=
  match b with
  | Z0 => Raise ZeroDivisionError
  | _ =>
      let s := xorb (is_negative a) (is_negative b) in
      match a with
      | Z0 => Ok (S754_zero s)
      | _ =>
          match div_round s (Z.to_pos (Z.abs a)) (Z.to_pos (Z.abs b)) with
          | S754_infinity _ => Raise OverflowError
          | q => Ok q
          end
      end
  end.

End Float.

(** ** The relevance filter

    [[
    def is_relevant_image(width: int, height: int) -> bool:
        total_pixels = width * height
        aspect_ratio = width / height if height != 0 else 0
        return not (total_pixels < 40000 and 0.8 <= aspect_ratio <= 1.2)
    ]]

    The integer [0] of the guarded branch compares with the float literals
    as the float zero does. *)

Definition is_relevant_image (width height : Z) : result bool :=
  let total_pixels := width * height in
  match (if negb (height =? 0) then Float.truediv width height
         else Ok Float.zero) with
  | Raise e => Raise e
  | Ok aspect_ratio =>
      Ok (negb ((total_pixels <? 40000)
                && (Float.le Float.lit_0_8 aspect_ratio
                    && Float.le aspect_ratio Float.lit_1_2)))
  end.

(** The band of the specification on exact rationals:
    [4/5 <= width/height <= 6/5], the ratio of a zero height being [0]. *)
Definition ratio_in_band (width height : Z) : Prop :=
  height ≠ 0 ∧
  ((0 < height ∧ 4 * height ≤ 5 * width ∧ 5 * width ≤ 6 * height)
   ∨ (height < 0 ∧ 5 * width ≤ 4 * height ∧ 6 * height ≤ 5 * width)).

(** What the filter answers once the division has produced [q]. *)
Definition verdict (total_pixels : Z) (q : Float.float) : bool :=
  negb ((total_pixels <? 40000) && (Float.le Float.lit_0_8 q && Float.le q Float.lit_1_2)).


(** The band on two positive integers, by cross-multiplication. *)
Definition in_band (a b : Z) : bool := (4 * b <=? 5 * a) && (5 * a <=? 6 * b).

(** The float test of the filter agrees with [in_band] on [a / b]. *)
Definition band_agrees (b a : Z) : bool :=
  match a, b with
  | Z.pos a', Z.pos b' =>
      let q := Float.div_round false a' b' in
      Bool.eqb (Float.le Float.lit_0_8 q && Float.le q Float.lit_1_2) (in_band a b)
  | _, _ => false
  end.

(** [f lo && f (lo + 1) && ... && f (lo + n - 1)]. *)
Fixpoint check_from (f : Z → bool) (lo : Z) (n : nat) : bool :=
  match n with
  | O => true
  | S n' => f lo && check_from f (lo + 1) n'
  end.

(** The pairs with [b < 8 a], [a < 4 b] and [a b < 40000], row by row. *)
Definition row_agrees (b : Z) : bool :=
  check_from (band_agrees b) (b / 8 + 1)
    (Z.to_nat (Z.min (4 * b - 1) (39999 / b) - b / 8)).

(** The images the specification says are passed over. *)
Definition small_near_square (width height : Z) : Prop :=
  width * height < 40000 ∧ ratio_in_band width height.

(** ** Values read back from a cache file

    [json.load] yields [None], a [bool], a number, a [str], a [list] or a
    [dict] with [str] keys. *)

#[warnings="-register-all"]
Inductive pyvalue : Type :=
  | PyNone
  | PyBool (b : bool)
  | PyInt (n : Z)
  | PyFloat (x : Float.float)
  | PyStr (s : pystr)
  | PyList (vs : list pyvalue)
  | PyDict (kvs : list (pystr * pyvalue)).

(** The truth value [if v:] tests. *)
Definition truthy (v : pyvalue) : bool :=
  match v with
  | PyNone => false
  | PyBool b => b
  | PyInt n => negb (n =? 0)
  | PyFloat (S754_zero _) => false
  | PyFloat _ => true
  | PyStr s => negb (bool_decide (s = []))
  | PyList vs => match vs with [] => false | _ => true end
  | PyDict kvs => match kvs with [] => false | _ => true end
  end.

(** [d[key]] on the pairs of a [dict], whose keys are distinct. *)
Fixpoint dict_get (kvs : list (pystr * pyvalue)) (key : pystr) : option pyvalue :=
  match kvs with
  | [] => None
  | (k, v) :: kvs' => if bool_decide (k = key) then Some v else dict_get kvs' key
  end.

(** ** The response model

    [[
    class PDFParseResponse(BaseModel):
        content: str
    ]] *)

Record PDFParseResponse : Type := { content : pystr }.

(** [result.dict()]. *)
Definition PDFParseResponse_dict (r : PDFParseResponse) : pyvalue :=
  PyDict [(lit "content", PyStr (content r))].

(** The name [type(v).__name__] of a value read from JSON. *)
Definition type_name (v : pyvalue) : pystr :=
  match v with
  | PyNone => lit "NoneType"
  | PyBool _ => lit "bool"
  | PyInt _ => lit "int"
  | PyFloat _ => lit "float"
  | PyStr _ => lit "str"
  | PyList _ => lit "list"
  | PyDict _ => lit "dict"
  end.

(** The constructor called with the keyword arguments unpacked from a
    [v] that is not a mapping.  The text
    names the callable as the interpreter prints it, with the name of the
    module the class was defined in. *)
Definition TypeError_not_a_mapping (module_name : pystr) (v : pyvalue) : exn :=
  Exception "TypeError"
    (module_name ++ lit ".PDFParseResponse() argument after ** must be a mapping, not "
     ++ type_name v).
Definition ValidationError_missing : exn :=
  Exception "ValidationError" (lit "content: field required").

(** ** PDF objects, as PyPDF2 hands them to the pipeline *)

#[warnings="-register-all"]
Inductive pdf_value : Type :=
  | PdfName (name : pystr)
  | PdfInt (n : Z)
  | PdfArray (vs : list pdf_value).

(** [v == "..."]: only a name object equals a string. *)
Definition pdf_eq_str (v : pdf_value) (s : pystr) : bool :=
  match v with
  | PdfName name => bool_decide (name = s)
  | _ => false
  end.

(** A stream object of the page's [/XObject] table: its dictionary and
    what [get_data()] does. *)
Record XObject : Type := {
  xobj_dict : gmap pystr pdf_value;
  get_data : result bytes
}.

(** [d[key]] on a PDF dictionary; a missing key is a [KeyError]. *)
Definition getitem (d : gmap pystr pdf_value) (key : string) : result pdf_value :=
  match d !! lit key with
  | Some v => Ok v
  | None => Raise (KeyError key)
  end.

(** A page: what [extract_text()] does, and the [/XObject] table of its
    [/Resources] in iteration order, when the page has both. *)
Record Page : Type := {
  extract_text : result pystr;
  page_xobjects : option (list (pystr * XObject))
}.

(** A decoded PIL image: [img.size] and what [img.save(buf, format=...)]
    leaves in the buffer. *)
Record Image : Type := {
  img_size : Z * Z;
  img_save : pystr → result bytes
}.

(** [enumerate(xs, start)]. *)
Fixpoint enumerate {A : Type} (start : Z) (xs : list A) : list (Z * A) :=
  match xs with
  | [] => []
  | x :: xs' => (start, x) :: enumerate (start + 1) xs'
  end.

(** The two sections the pipeline appends:
    [f"\n\n--- Page {page_num} ---\n\n{page_text}\n"] and
    [f"\n\n--- Image Analysis (Page {page_num}) ---\n\n{analysis}\n"]. *)
Definition page_section (page_num : Z) (page_text : pystr) : pystr :=
  nl ++ nl ++ lit "--- Page " ++ str_of_int page_num ++ lit " ---"
  ++ nl ++ nl ++ page_text ++ nl.

Definition image_section (page_num : Z) (analysis : pystr) : pystr :=
  nl ++ nl ++ lit "--- Image Analysis (Page " ++ str_of_int page_num ++ lit ") ---"
  ++ nl ++ nl ++ analysis ++ nl.

Arguments page_section : simpl never.
Arguments image_section : simpl never.

(** An image whose dictionary has the four entries the loop reads, whose
    stream data can be read, and whose [/Filter] is none of the three the
    pipeline decodes. *)
Definition unrecognized_image (xobj : XObject) : Prop :=
  ∃ subtype width height data filter,
    getitem (xobj_dict xobj) "/Subtype" = Ok subtype
    ∧ pdf_eq_str subtype (lit "/Image") = true
    ∧ getitem (xobj_dict xobj) "/Width" = Ok width
    ∧ getitem (xobj_dict xobj) "/Height" = Ok height
    ∧ get_data xobj = Ok data
    ∧ getitem (xobj_dict xobj) "/Filter" = Ok filter
    ∧ pdf_eq_str filter (lit "/FlateDecode") = false
    ∧ pdf_eq_str filter (lit "/DCTDecode") = false
    ∧ pdf_eq_str filter (lit "/JPXDecode") = false.

(** ** The disk under the cache directory *)

Inductive file : Type :=
  | Unreadable (e : exn)       (* [open(path, "r")] raises [e] *)
  | Malformed (e : exn)        (* [json.load] raises [e] *)
  | Json (v : pyvalue).        (* a well-formed JSON document *)

Record Disk : Type := {
  files : gmap pystr file;
  write_fault : pystr → option exn   (* what [open(path, "w")] raises, if anything *)
}.

Definition write_file (d : Disk) (path : pystr) (f : file) : Disk :=
  {| files := <[path := f]> (files d); write_fault := write_fault d |}.

#[global] Instance result_ret : MRet result := λ A, Ok.
#[global] Instance result_bind : MBind result := λ A B f r,
  match r with
  | Ok a => f a
  | Raise e => Raise e
  end.

(** The text an analysis section carries: the analyzer's answer, or the
    placeholder of the [except] branch. *)
Definition analysis_text (r : result pystr) : pystr :=
  match r with
  | Ok analysis => analysis
  | Raise e => lit "Error analyzing image: " ++ str_of_exn e
  end.

(** ** The libraries the pipeline calls

    [hashlib.sha256(b).hexdigest()], [PdfReader(f).pages], the two PIL
    decoders, and pydantic's validation of a [content] that is not a
    [str]; with them, the [__name__] the module runs under ([__main__]
    when it is started as a script). *)

Class Libraries : Type := {
  sha256_hexdigest : bytes → pystr;
  PdfReader : bytes → result (list Page);
  Image_frombytes : pystr → pdf_value * pdf_value → bytes → result Image;
  Image_open : bytes → result Image;
  validate_content : pyvalue → result pystr;
  module_name : pystr
}.

(** ** The pipeline *)

Section Pipeline.

(** The state of the vision model's side of the network. *)
Context {World : Type} `{Libraries}.

(** One call of the image analyzer: its three arguments. *)
Record call : Type := {
  call_image_data : bytes;
  call_media_type : pystr;
  call_context : pystr
}.

(** What a run of the pipeline reads and changes; [calls] is a ghost log
    of the analyzer calls made so far, oldest first. *)
Record state : Type := {
  world : World;
  disk : Disk;
  calls : list call
}.

(** A computation that may change the state and may raise. *)
Definition M (A : Type) : Type := state → result A * state.

#[global] Instance M_ret : MRet M := λ A a st, (Ok a, st).
#[global] Instance M_bind : MBind M := λ A B f m st,
  match m st with
  | (Ok a, st') => f a st'
  | (Raise e, st') => (Raise e, st')
  end.

Definition lift {A : Type} (r : result A) : M A := λ st, (r, st).

(** [try: body / except Exception as e: handler(e)]. *)
Definition try_except {A : Type} (body : M A) (handler : exn → M A) : M A :=
  λ st,
    match body st with
    | (Ok a, st') => (Ok a, st')
    | (Raise e, st') => handler e st'
    end.

(** [for x in xs: acc = body(x, acc)]. *)
Fixpoint for_each {A B : Type} (body : A → B → M B) (xs : list A) (acc : B) : M B :=
  match xs with
  | [] => mret acc
  | x :: xs' => acc' ← body x acc; for_each body xs' acc'
  end.

(** *** [FileCache]

    [[
    def get(self, key):
        file_path = os.path.join(self.cache_dir, f"{key}.json")
        if not os.path.exists(file_path):
            return None
        with open(file_path, "r") as f:
            return json.load(f)

    def put(self, key, value):
        file_path = os.path.join(self.cache_dir, f"{key}.json")
        with open(file_path, "w") as f:
            json.dump(value, f)
    ]] *)

(** Of a [put], the model has the failure of [open(file_path, "w")],
    which leaves the disk as it was; a file that was opened is taken to be
    written whole, and to be read back as the value that was put. *)

Record FileCache : Type := { cache_dir : pystr }.

Definition FileCache_path (self : FileCache) (key : pystr) : pystr :=
  os_path_join (cache_dir self) (key ++ lit ".json").

Definition FileCache_get (self : FileCache) (key : pystr) : M pyvalue :=
  λ st,
    let file_path := FileCache_path self key in
    match files (disk st) !! file_path with
    | None => (Ok PyNone, st)
    | Some (Unreadable e) => (Raise e, st)
    | Some (Malformed e) => (Raise e, st)
    | Some (Json v) => (Ok v, st)
    end.

Definition FileCache_put (self : FileCache) (key : pystr) (value : pyvalue) : M unit :=
  λ st,
    let file_path := FileCache_path self key in
    match write_fault (disk st) file_path with
    | Some e => (Raise e, st)
    | None =>
        (Ok (),
         {| world := world st;
            disk := write_file (disk st) file_path (Json value);
            calls := calls st |})
    end.

(** [pdf_cache = FileCache()]. *)
Definition pdf_cache : FileCache := {| cache_dir := lit ".cache" |}.

(** *** [ClaudeClient]

    The pipeline uses the client through its one method. *)

Record ClaudeClient : Type := {
  analyze_image : bytes → pystr → pystr → World → result pystr * World
}.

(** The client of the source: [messages_create] is the call
    [self.client.messages.create(...)] with the prompt, the media type and
    the base64 data, and returns the texts of [message.content]. *)
Definition analysis_prompt (context : pystr) : pystr :=
  nl ++ lit "Context: " ++ context ++ nl ++ nl
  ++ lit "Please analyze the following image in detail. Identify the type of diagram or document it represents (e.g., architecture diagram, sequence diagram, database table diagram, API specification, flowchart, UML diagram)." ++ nl ++ nl
  ++ lit "Based on the identified type, provide a detailed analysis including:" ++ nl ++ nl
  ++ lit "- For database diagrams: List all tables, their columns, data types, primary keys, and relationships." ++ nl
  ++ lit "- For API endpoints: Describe the URL, HTTP method, request format (headers, parameters, body), and response format." ++ nl
  ++ lit "- For architecture diagrams: List all components, their purposes, and explain the relationships and data flow." ++ nl
  ++ lit "- For sequence diagrams: List all actors/components and describe the sequence of interactions." ++ nl
  ++ lit "- For flowcharts: Describe all steps/decision points and explain the process flow and logic." ++ nl
  ++ lit "- For UML diagrams: Identify the type, describe the main elements and their relationships." ++ nl
  ++ lit "- For any other type: Provide a detailed description of the content and explain any significant elements or patterns." ++ nl ++ nl
  ++ lit "Provide your analysis in a clear, detailed text format." ++ nl.

Definition AnthropicClient
    (b64encode : bytes → pystr)
    (messages_create : pystr → pystr → pystr → World → result (list pystr) * World)
    : ClaudeClient :=
  {| analyze_image := λ image_data media_type context w,
       let base64_data := b64encode image_data in
       let prompt := analysis_prompt context in
       match messages_create prompt media_type base64_data w with
       | (Ok message_content, w') =>
           (Ok (match message_content with
                | text :: _ => text
                | [] => lit "No analysis available"
                end), w')
       | (Raise e, w') => (Raise e, w')
       end |}.

(** *** The client of one deployment

    [claude_client = ClaudeClient()]. *)

Variable claude_client : ClaudeClient.

(** The constructor call on line 117, with the cached [dict] unpacked
    into keyword arguments. *)
Definition PDFParseResponse_new (kwargs : pyvalue) : result PDFParseResponse :=
  match kwargs with
  | PyDict kvs =>
      match dict_get kvs (lit "content") with
      | None => Raise ValidationError_missing
      | Some (PyStr s) => Ok {| content := s |}
      | Some v => s ← validate_content v; Ok {| content := s |}
      end
  | v => Raise (TypeError_not_a_mapping module_name v)
  end.

(** [[
    def get_pdf_hash(pdf_content: bytes) -> str:
        return hashlib.sha256(pdf_content).hexdigest()
    ]] *)
Definition get_pdf_hash (pdf_content : bytes) : pystr :=
  sha256_hexdigest pdf_content.

(** [claude_client.analyze_image(...)], logged. *)
Definition call_analyze_image (image_data : bytes) (media_type context : pystr)
    : M pystr :=
  λ st,
    let '(r, w) := analyze_image claude_client image_data media_type context (world st) in
    (r, {| world := w;
           disk := disk st;
           calls := calls st ++ [{| call_image_data := image_data;
                                    call_media_type := media_type;
                                    call_context := context |}] |}).

(** Lines 134-147: the decoder chosen by the [/Filter] entry, with the
    format and the media type; [None] is the [continue] of the last
    branch. *)
Definition decode (filter : pdf_value) (size : pdf_value * pdf_value) (data : bytes)
    : result (option (Image * pystr * pystr)) :=
  if pdf_eq_str filter (lit "/FlateDecode") then
    img ← Image_frombytes (lit "RGB") size data;
    Ok (Some (img, lit "png", lit "image/png"))
  else if pdf_eq_str filter (lit "/DCTDecode") then
    img ← Image_open data;
    Ok (Some (img, lit "jpeg", lit "image/jpeg"))
  else if pdf_eq_str filter (lit "/JPXDecode") then
    img ← Image_open data;
    Ok (Some (img, lit "jp2", lit "image/jp2"))
  else Ok None.

(** What lines 130-156 compute for one object, before the analyzer is
    involved: [None] when the object is passed over (not an image, an
    unrecognized filter, or an image the filter rejects), the re-encoded
    bytes and the media type when the image reaches the analysis step. *)
Definition prepare (xobj : XObject) : result (option (bytes * pystr)) :=
  subtype ← getitem (xobj_dict xobj) "/Subtype";
  if negb (pdf_eq_str subtype (lit "/Image")) then Ok None else
  width ← getitem (xobj_dict xobj) "/Width";
  height ← getitem (xobj_dict xobj) "/Height";
  data ← get_data xobj;
  filter ← getitem (xobj_dict xobj) "/Filter";
  decoded ← decode filter (width, height) data;
  match decoded with
  | None => Ok None
  | Some (img, format, mime_type) =>
      relevant ← is_relevant_image (img_size img).1 (img_size img).2;
      if negb relevant then Ok None else
      img_byte_arr ← img_save img (upper format);
      Ok (Some (img_byte_arr, mime_type))
  end.

(** A qualifying image is one that reaches the analysis step. *)
Definition qualifies (xobj : XObject) : bool :=
  match prepare xobj with
  | Ok (Some _) => true
  | _ => false
  end.

Definition count_qualifying (page : Page) : nat :=
  match page_xobjects page with
  | Some xObject => length (List.filter (λ obj, qualifies obj.2) xObject)
  | None => 0%nat
  end.

(** Lines 158-167: the analysis step on an image that reached it. *)
Definition analysis_step (page_num : Z) (img_byte_arr : bytes) (mime_type : pystr)
    (full_content : pystr) : M pystr :=
  analysis ← try_except
    (call_analyze_image img_byte_arr mime_type full_content)
    (λ e, mret (lit "Error analyzing image: " ++ str_of_exn e));
  mret (full_content ++ image_section page_num analysis).

(** Lines 130-167: the body of [for obj in xObject], as a function from
    [full_content] before to [full_content] after. *)
Definition xobject_body (page_num : Z) (xobj : XObject) (full_content : pystr)
    : M pystr :=
  subtype ← lift (getitem (xobj_dict xobj) "/Subtype");
  if negb (pdf_eq_str subtype (lit "/Image")) then mret full_content else
  width ← lift (getitem (xobj_dict xobj) "/Width");
  height ← lift (getitem (xobj_dict xobj) "/Height");
  let size := (width, height) in
  data ← lift (get_data xobj);
  filter ← lift (getitem (xobj_dict xobj) "/Filter");
  decoded ← lift (decode filter size data);
  match decoded with
  | None => mret full_content
  | Some (img, format, mime_type) =>
      let '(width, height) := img_size img in
      relevant ← lift (is_relevant_image width height);
      if negb relevant then mret full_content else
      img_byte_arr ← lift (img_save img (upper format));
      analysis ← try_except
        (call_analyze_image img_byte_arr mime_type full_content)
        (λ e, mret (lit "Error analyzing image: " ++ str_of_exn e));
      mret (full_content ++ image_section page_num analysis)
  end.

(** Lines 123-167: the body of [for page_num, page in enumerate(pdf.pages, 1)]. *)
Definition page_body (entry : Z * Page) (full_content : pystr) : M pystr :=
  let '(page_num, page) := entry in
  page_text ← lift (extract_text page);
  let full_content := full_content ++ page_section page_num page_text in
  match page_xobjects page with
  | Some xObject =>
      for_each (λ obj, xobject_body page_num obj.2) xObject full_content
  | None => mret full_content
  end.

(** Lines 111-173. *)
Definition parse_pdf (pdf_file : bytes) : M PDFParseResponse :=
  let pdf_content := pdf_file in
  let pdf_hash := get_pdf_hash pdf_content in
  cached_result ← FileCache_get pdf_cache pdf_hash;
  if truthy cached_result then lift (PDFParseResponse_new cached_result) else
  pdf ← lift (PdfReader pdf_file);
  full_content ← for_each page_body (enumerate 1 pdf) [];
  let result := {| content := strip full_content |} in
  _ ← FileCache_put pdf_cache pdf_hash (PDFParseResponse_dict result);
  mret result.

(** The client that answers with the placeholder text where
    [claude_client] raises. *)
Definition recovering : ClaudeClient :=
  {| analyze_image := λ image_data media_type context w,
       let r := analyze_image claude_client image_data media_type context w in
       (Ok (analysis_text r.1), r.2) |}.

(** The state after a successful [FileCache.put] of [value] under [key]. *)
Definition stored (st : state) (key : pystr) (value : pyvalue) : state :=
  {| world := world st;
     disk := write_file (disk st) (FileCache_path pdf_cache key) (Json value);
     calls := calls st |}.

(** Decoding a recognized image raises [e] (lines 134-145), or the image
    decodes and passes the filter and re-encoding it raises [e]
    (line 155). *)
Definition decoding_raises (xobj : XObject) (e : exn) : Prop :=
  ∃ subtype width height data filter,
    getitem (xobj_dict xobj) "/Subtype" = Ok subtype
    ∧ pdf_eq_str subtype (lit "/Image") = true
    ∧ getitem (xobj_dict xobj) "/Width" = Ok width
    ∧ getitem (xobj_dict xobj) "/Height" = Ok height
    ∧ get_data xobj = Ok data
    ∧ getitem (xobj_dict xobj) "/Filter" = Ok filter
    ∧ decode filter (width, height) data = Raise e.

Definition saving_raises (xobj : XObject) (e : exn) : Prop :=
  ∃ subtype width height data filter img format mime_type,
    getitem (xobj_dict xobj) "/Subtype" = Ok subtype
    ∧ pdf_eq_str subtype (lit "/Image") = true
    ∧ getitem (xobj_dict xobj) "/Width" = Ok width
    ∧ getitem (xobj_dict xobj) "/Height" = Ok height
    ∧ get_data xobj = Ok data
    ∧ getitem (xobj_dict xobj) "/Filter" = Ok filter
    ∧ decode filter (width, height) data = Ok (Some (img, format, mime_type))
    ∧ is_relevant_image (img_size img).1 (img_size img).2 = Ok true
    ∧ img_save img (upper format) = Raise e.

(** Whether the lookup of line 115 comes back empty-handed: no file for
    the fingerprint, or a file holding a value that tests false. *)
Definition cache_miss (pdf_file : bytes) (st : state) : bool :=
  match (FileCache_get pdf_cache (get_pdf_hash pdf_file) st).1 with
  | Ok cached_result => negb (truthy cached_result)
  | Raise _ => false
  end.

End Pipeline.

(** ** The composed document, as the specification words it

    A page contributes its header and text, then one analysis section per
    qualifying image, in encounter order; pages come in increasing page
    number; the whole is trimmed. *)

Definition compose_page (page_num : Z) (page_text : pystr) (analyses : list pystr)
    : pystr :=
  page_section page_num page_text ++ concat (map (image_section page_num) analyses).

Arguments compose_page : simpl never.

Fixpoint compose_pages (page_num : Z) (pages : list (pystr * list pystr)) : pystr :=
  match pages with
  | [] => []
  | (page_text, analyses) :: pages' =>
      compose_page page_num page_text analyses ++ compose_pages (page_num + 1) pages'
  end.

Definition composed_document (pages : list (pystr * list pystr)) : pystr :=
  strip (compose_pages 1 pages).

(** The document accumulated before each analysis of a page whose text is
    already in [full_content], and before each analysis of a run of
    pages. *)
Fixpoint contexts_of (page_num : Z) (full_content : pystr) (analyses : list pystr)
    : list pystr :=
  match analyses with
  | [] => []
  | a :: analyses' =>
      full_content
      :: contexts_of page_num (full_content ++ image_section page_num a) analyses'
  end.

Fixpoint doc_contexts (page_num : Z) (full_content : pystr)
    (pages : list (pystr * list pystr)) : list pystr :=
  match pages with
  | [] => []
  | (page_text, analyses) :: pages' =>
      contexts_of page_num (full_content ++ page_section page_num page_text) analyses
      ++ doc_contexts (page_num + 1)
           (full_content ++ compose_page page_num page_text analyses) pages'
  end.

(** No whitespace at either end. *)
Definition trimmed (s : pystr) : Prop :=
  (∀ c, head s = Some c → isspace c = false)
  ∧ (∀ c, last s = Some c → isspace c = false).

(** Each string is a prefix of all the later ones. *)
Fixpoint prefix_chain (l : list pystr) : Prop :=
  match l with
  | [] => True
  | s :: l' => Forall (λ t, s `prefix_of` t) l' ∧ prefix_chain l'
  end.

(** ** The service boundary

    [[
    @app.post("/parse-pdf/", response_model=PDFParseResponse)
    async def parse_pdf_endpoint(file: UploadFile = File(...)):
        if file.content_type != "application/pdf":
            raise HTTPException(400, detail="Invalid document type. ...")
        pdf_content = await file.read()
        pdf_file = io.BytesIO(pdf_content)
        try:
            parse_result = parse_pdf(pdf_file)
            return parse_result
        except Exception as e:
            raise HTTPException(500, detail=f"An error occurred ...: {str(e)}")
    ]] *)

(** An upload: its declared content type, if any, and what [file.read()]
    does. *)
Record UploadFile : Type := {
  content_type : option pystr;
  read : result bytes
}.

(** How a request ends: with the returned model, with an [HTTPException],
    or with an exception nothing caught. *)
Inductive response (A : Type) : Type :=
  | Returned (a : A)
  | HTTPException (status_code : Z) (detail : pystr)
  | Uncaught (e : exn).
Arguments Returned {A} a.
Arguments HTTPException {A} status_code detail.
Arguments Uncaught {A} e.

Section Service.

Context {World : Type} `{Libraries}.
Variable claude_client : ClaudeClient (World := World).

Definition parse_pdf_endpoint (file : UploadFile)
    : state (World := World) → response PDFParseResponse * state (World := World) :=
  λ st,
    if negb (bool_decide (content_type file = Some (lit "application/pdf"))) then
      (HTTPException 400 (lit "Invalid document type. Please upload a PDF file."), st)
    else
      match read file with
      | Raise e => (Uncaught e, st)
      | Ok pdf_content =>
          let pdf_file := pdf_content in
          match parse_pdf claude_client pdf_file st with
          | (Ok parse_result, st') => (Returned parse_result, st')
          | (Raise e, st') =>
              (HTTPException 500
                 (lit "An error occurred while parsing the PDF: " ++ str_of_exn e),
               st')
          end
      end.

End Service.

(** ** The constructor of the client

    [[
    def __init__(self):
        api_key = os.getenv("ANTHROPIC_API_KEY")
        if not api_key:
            raise ValueError("ANTHROPIC_API_KEY not found in environment variables")
        self.client = anthropic.Anthropic(api_key=api_key)
    ]]

    [Anthropic api_key] is the [messages.create] of the client built with
    that key. *)

Definition ValueError_no_api_key : exn :=
  Exception "ValueError" (lit "ANTHROPIC_API_KEY not found in environment variables").

Definition ClaudeClient_init {World : Type}
    (getenv : string → option pystr)
    (b64encode : bytes → pystr)
    (Anthropic : pystr → pystr → pystr → pystr → World → result (list pystr) * World)
    : result (ClaudeClient (World := World)) :=
  match getenv "ANTHROPIC_API_KEY"%string with
  | None => Raise ValueError_no_api_key
  | Some [] => Raise ValueError_no_api_key
  | Some api_key => Ok (AnthropicClient b64encode (Anthropic api_key))
  end.

(** ** The review script, [review-tdd.py] *)

Definition META_PROMPT : pystr :=
  nl
  ++ lit "Review the technical design document provided, focusing on the overall technical design, approaches, REST endpoints, and database design. Your role is to review it as a software architect." ++ nl ++ nl
  ++ lit "Carefully analyze each aspect of the document:" ++ nl ++ nl
  ++ lit "- **Overall Technical Design and Approach**: Evaluate if the proposed design is logical and efficient. Consider scalability, maintainability, and performance." ++ nl
  ++ lit "- **REST Endpoints**: Check if the REST endpoints are well-defined, including clear input/output specifications. Assess their alignment with business requirements and standard practices." ++ nl
  ++ lit "- **Database Design**: Investigate the database schema for normalization, relationships, indexing, and overall performance. Ensure it supports the application's needs effectively." ++ nl ++ nl
  ++ lit "Provide constructive feedback for improvements or confirm if it meets necessary standards and is ready for implementation." ++ nl ++ nl
  ++ lit "# Output Format" ++ nl ++ nl
  ++ lit "- Start with a brief summary of your overall impression." ++ nl
  ++ lit "- Break down your feedback into sections: Technical Design, REST Endpoints, and Database Design." ++ nl
  ++ lit "- Offer detailed suggestions for improvement or indicate areas of success." ++ nl
  ++ lit "- Conclude with a final recommendation on whether the design is good to proceed with or needs further refinement." ++ nl ++ nl
  ++ lit "# Examples" ++ nl ++ nl
  ++ lit "**Overall Technical Design**:  " ++ nl
  ++ lit "- [Observation]: The design proposes a monolithic architecture.  " ++ nl
  ++ lit "- [Feedback]: Consider adopting a microservices approach for better scalability and independent deployments." ++ nl ++ nl
  ++ lit "**REST Endpoints**:  " ++ nl
  ++ lit "- [Observation]: Endpoints lack standard RESTful conventions.  " ++ nl
  ++ lit "- [Feedback]: Ensure endpoints use proper REST methods and naming conventions, such as GET for retrieval." ++ nl ++ nl
  ++ lit "**Database Design**:  " ++ nl
  ++ lit "- [Observation]: The schema includes non-normalized tables leading to data redundancy.  " ++ nl
  ++ lit "- [Feedback]: Normalize tables to reduce redundancy and improve data integrity." ++ nl ++ nl
  ++ lit "**Recommendation**:  " ++ nl
  ++ lit "After reviewing the document, it appears [summary feedback]. It would be [decision on readiness] to proceed with certain refinements." ++ nl.

(** The double quote, which the error texts below contain. *)
Definition dquote : pystr := [34%N].

(** ["..." + tdd] with a [tdd] that is not a [str]. *)
Definition TypeError_concatenate (v : pyvalue) : exn :=
  Exception "TypeError"
    (lit "can only concatenate str (not " ++ dquote ++ type_name v ++ dquote
     ++ lit ") to str").
Definition IndexError_list : exn :=
  Exception "IndexError" (lit "list index out of range").
(** [v.get] on a value that is not a [dict]. *)
Definition AttributeError_get (v : pyvalue) : exn :=
  Exception "AttributeError"
    (lit "'" ++ type_name v ++ lit "' object has no attribute 'get'").

(** [response.json()] of the HTTP response to the upload. *)
Record Response : Type := { json : result pyvalue }.

(** One message of a chat request: role and content. *)
Record message : Type := { role : pystr; message_content : pystr }.

(** The two services the script talks to:
    [client.chat.completions.create(model=..., messages=...)], which
    returns the [message.content] of each choice, and
    [requests.post(url, files=..., headers=...)] with the bytes of the
    uploaded file. *)
Class Services (World : Type) : Type := {
  chat_completions_create :
    pystr → list message → World → result (list (option pystr)) * World;
  requests_post : pystr → bytes → World → result Response * World;
  open_rb : pystr → result bytes
}.

Section ReviewScript.

Context {World : Type} `{Services World}.

(** What the script changes: the services' side of the world, and the
    lines it has printed. *)
Record script_state : Type := {
  services : World;
  stdout : list pystr
}.

(** [[
    def review_tdd(tdd: str):
        completion = client.chat.completions.create(
            model="gpt-4o",
            messages=[
                {"role": "system", "content": META_PROMPT},
                {"role": "user",
                 "content": "\n\n# HERE IS THE TECHNICAL DESIGN DOCUMENT TO REVIEW:\n" + tdd},
            ],
        )
        return completion.choices[0].message.content
    ]]

    The argument is whatever the caller passes; the concatenation is
    evaluated before the call. *)
Definition review_request (tdd : pystr) : list message :=
  [ {| role := lit "system"; message_content := META_PROMPT |};
    {| role := lit "user";
       message_content :=
         nl ++ nl ++ lit "# HERE IS THE TECHNICAL DESIGN DOCUMENT TO REVIEW:" ++ nl
         ++ tdd |} ].

Definition review_tdd (tdd : pyvalue) (w : World) : result (option pystr) * World :=
  match tdd with
  | PyStr s =>
      match chat_completions_create (lit "gpt-4o") (review_request s) w with
      | (Ok choices, w') =>
          (match choices with
           | content :: _ => Ok content
           | [] => Raise IndexError_list
           end, w')
      | (Raise e, w') => (Raise e, w')
      end
  | v => (Raise (TypeError_concatenate v), w)
  end.

(** [print(x)] of a [str] or [None]. *)
Definition printed (x : option pystr) : pystr :=
  match x with
  | Some s => s
  | None => lit "None"
  end.

(** [v.get("content")]. *)
Definition json_get_content (v : pyvalue) : result pyvalue :=
  match v with
  | PyDict kvs =>
      Ok (match dict_get kvs (lit "content") with
          | Some c => c
          | None => PyNone
          end)
  | _ => Raise (AttributeError_get v)
  end.

(** [[
    def main():
        path = "/Users/adeelqureshi/Downloads/erd.pdf"
        with open(path, "rb") as f:
            files = {"file": (path, f, "application/pdf")}
            headers = {"Accept": "application/json"}
            print("Making request")
            response = requests.post(
                "http://localhost:8000/parse-pdf", files=files, headers=headers)
            content = response.json().get("content")
            print(review_tdd(content))
    ]] *)
Definition main (st : script_state) : result unit * script_state :=
  let path := lit "/Users/adeelqureshi/Downloads/erd.pdf" in
  match open_rb path with
  | Raise e => (Raise e, st)
  | Ok f =>
      let st1 := {| services := services st;
                    stdout := stdout st ++ [lit "Making request"] |} in
      match requests_post (lit "http://localhost:8000/parse-pdf") f (services st1) with
      | (Raise e, w) => (Raise e, {| services := w; stdout := stdout st1 |})
      | (Ok response, w) =>
          let st2 := {| services := w; stdout := stdout st1 |} in
          match json response with
          | Raise e => (Raise e, st2)
          | Ok body =>
              match json_get_content body with
              | Raise e => (Raise e, st2)
              | Ok content =>
                  match review_tdd content (services st2) with
                  | (Raise e, w') => (Raise e, {| services := w'; stdout := stdout st2 |})
                  | (Ok review, w') =>
                      (Ok (), {| services := w';
                                 stdout := stdout st2 ++ [printed review] |})
                  end
              end
          end
      end
  end.

End ReviewScript.

(** ** What the analyzer is sent, and states that differ in the disk *)

(** What [hexdigest()] returns: digits and the lower-case letters [a]
    to [f]. *)
Definition is_hexdigit (ch : N) : bool :=
  ((48 <=? ch) && (ch <=? 57) || (97 <=? ch) && (ch <=? 102))%N.
Definition is_hexdigest (s : pystr) : bool := forallb is_hexdigit s.

Section Payloads.

Context {World : Type} `{Libraries}.





(** The same state over another disk. *)
Definition with_disk (d : Disk) (st : state (World := World)) : state (World := World) :=
  {| world := world st; disk := d; calls := calls st |}.

(** An image that decodes and that the relevance filter rejects. *)
Definition rejected_image (xobj : XObject) : Prop :=
  ∃ subtype width height data filter img format mime_type,
    getitem (xobj_dict xobj) "/Subtype" = Ok subtype
    ∧ pdf_eq_str subtype (lit "/Image") = true
    ∧ getitem (xobj_dict xobj) "/Width" = Ok width
    ∧ getitem (xobj_dict xobj) "/Height" = Ok height
    ∧ get_data xobj = Ok data
    ∧ getitem (xobj_dict xobj) "/Filter" = Ok filter
    ∧ decode filter (width, height) data = Ok (Some (img, format, mime_type))
    ∧ is_relevant_image (img_size img).1 (img_size img).2 = Ok false.

(** The dictionary of an object has a [/Width] and a [/Height]. *)
Definition declares_size (xobj : XObject) : Prop :=
  ∃ width height,
    getitem (xobj_dict xobj) "/Width" = Ok width
    ∧ getitem (xobj_dict xobj) "/Height" = Ok height.

(** A page whose text can be extracted and whose objects all get through
    the steps before the analysis (none of them raises). *)
Definition readable_page (page : Page) : Prop :=
  (∃ page_text, extract_text page = Ok page_text)
  ∧ ∀ xObject, page_xobjects page = Some xObject →
      Forall (λ obj : pystr * XObject, ∃ o, prepare obj.2 = Ok o) xObject.

End Payloads.

(** ** A small deployment, for the examples

    Stand-ins for the libraries and the vision model, and a few documents:
    enough to run [parse_pdf] inside Rocq. *)

Module Demo.

(** The model's side of the world: the number of calls it has answered. *)
Definition World : Type := nat.

Definition toy_digest (b : bytes) : pystr :=
  lit "h" ++ map (λ x, Byte.to_N x) b.

(** A decoded image that saves to [data], unless the encoder for [JP2] is
    missing. *)
Definition picture (size : Z * Z) (data : bytes) : Image :=
  {| img_size := size;
     img_save := λ format,
       if bool_decide (format = lit "JP2")
       then Raise (Exception "OSError" (lit "encoder jpeg2k not available"))
       else Ok data |}.

Definition toy_frombytes (mode : pystr) (size : pdf_value * pdf_value) (data : bytes)
    : result Image :=
  match size, data with
  | (PdfInt w, PdfInt h), _ :: _ => Ok (picture (w, h) data)
  | _, _ => Raise (Exception "ValueError" (lit "not enough image data"))
  end.

Definition toy_open (data : bytes) : result Image :=
  match data with
  | [] => Raise (Exception "UnidentifiedImageError" (lit "cannot identify image file"))
  | _ :: _ => Ok (picture (640, 480) data)
  end.

(** An image XObject with the four entries and the given stream data. *)
Definition image_xobject (filter : string) (width height : Z) (data : result bytes)
    : XObject :=
  {| xobj_dict :=
       <[lit "/Subtype" := PdfName (lit "/Image")]>
       (<[lit "/Width" := PdfInt width]>
       (<[lit "/Height" := PdfInt height]>
       (<[lit "/Filter" := PdfName (lit filter)]> ∅)));
     get_data := data |}.

(** The same without a [/Filter] entry: an uncompressed image. *)
Definition raw_xobject (width height : Z) (data : bytes) : XObject :=
  {| xobj_dict :=
       <[lit "/Subtype" := PdfName (lit "/Image")]>
       (<[lit "/Width" := PdfInt width]>
       (<[lit "/Height" := PdfInt height]> ∅));
     get_data := Ok data |}.

Definition diagram : XObject :=
  image_xobject "/FlateDecode" 500 500 (Ok [Byte.x2a]).
(** An image the model chokes on. *)
Definition poison : XObject :=
  image_xobject "/FlateDecode" 500 500 (Ok [Byte.x00]).
Definition icon : XObject :=
  image_xobject "/FlateDecode" 32 32 (Ok [Byte.x2a]).
Definition fax : XObject :=
  image_xobject "/CCITTFaxDecode" 1728 2200 (Ok [Byte.x2a]).
Definition jbig2 : XObject :=
  image_xobject "/JBIG2Decode" 1728 2200
    (Raise (Exception "NotImplementedError" (lit "unsupported filter /JBIG2Decode"))).
Definition truncated : XObject :=
  image_xobject "/FlateDecode" 500 500 (Ok []).
Definition jpx : XObject :=
  image_xobject "/JPXDecode" 640 480 (Ok [Byte.x2a]).

Definition text_page (text : string) : Page :=
  {| extract_text := Ok (lit text); page_xobjects := None |}.
Definition image_page (text : string) (xs : list XObject) : Page :=
  {| extract_text := Ok (lit text);
     page_xobjects := Some (map (λ x, (lit "/Im", x)) xs) |}.

(** The documents, by their first byte. *)
Definition toy_reader (pdf : bytes) : result (list Page) :=
  match pdf with
  | [Byte.x01] => Ok [text_page "Hello"; image_page "World" [diagram]]
  | [Byte.x02] => Ok [image_page "One" [poison; diagram]; text_page "Two"]
  | [Byte.x03] => Ok [text_page "One"; image_page "Two" [diagram; jbig2]]
  | [Byte.x04] => Ok [text_page "One"; image_page "Two" [diagram; truncated]]
  | [Byte.x05] => Ok [text_page "One"; image_page "Two" [diagram; jpx]]
  | [Byte.x06] => Ok [image_page "One" [icon; fax; diagram]]
  | [Byte.x07] => Ok [image_page "One" [raw_xobject 500 500 [Byte.x2a]]]
  | _ => Raise (Exception "PdfReadError" (lit "EOF marker not found"))
  end.

#[export] Instance libraries : Libraries :=
  {| sha256_hexdigest := toy_digest;
     PdfReader := toy_reader;
     Image_frombytes := toy_frombytes;
     Image_open := toy_open;
     validate_content := λ _,
       Raise (Exception "ValidationError" (lit "content: str type expected"));
     module_name := lit "__main__" |}.

(** The model answers every image but the poisoned one. *)
Definition client : ClaudeClient (World := World) :=
  {| analyze_image := λ image_data media_type context w,
       match image_data with
       | Byte.x00 :: _ => (Raise (Exception "APIError" (lit "overloaded")), S w)
       | _ => (Ok (lit "A diagram."), S w)
       end |}.

Definition no_faults : pystr → option exn := λ _, None.

Definition fresh : state (World := World) :=
  {| world := 0%nat;
     disk := {| files := ∅; write_fault := no_faults |};
     calls := [] |}.

Definition with_file (path : pystr) (f : file) : state (World := World) :=
  {| world := 0%nat;
     disk := {| files := {[ path := f ]}; write_fault := no_faults |};
     calls := [] |}.

Definition read_only : state (World := World) :=
  {| world := 0%nat;
     disk := {| files := ∅;
                write_fault := λ _,
                  Some (Exception "PermissionError" (lit "Permission denied")) |};
     calls := [] |}.

(** The state [parse_pdf] leaves behind on a read-only disk: the one
    analysis of the first document was made, nothing was stored. *)
Definition read_only_after (pdf : bytes) : state (World := World) :=
  {| world := world (parse_pdf client pdf read_only).2;
     disk := disk read_only;
     calls := calls (parse_pdf client pdf read_only).2 |}.

Definition cache_file (pdf : bytes) : pystr :=
  FileCache_path pdf_cache (get_pdf_hash pdf).

Definition response_of (r : result PDFParseResponse) : PDFParseResponse :=
  match r with
  | Ok resp => resp
  | Raise _ => {| content := [] |}
  end.

(** The runs the examples refer to, evaluated. *)
Definition two_pages : bytes := [Byte.x01].
Definition two_pages_response : PDFParseResponse := Eval vm_compute in
  response_of (parse_pdf client two_pages fresh).1.
Definition two_pages_state : state (World := World) := Eval vm_compute in
  (parse_pdf client two_pages fresh).2.

Definition poisoned : bytes := [Byte.x02].
Definition poisoned_response : PDFParseResponse := Eval vm_compute in
  response_of (parse_pdf client poisoned fresh).1.
Definition poisoned_state : state (World := World) := Eval vm_compute in
  (parse_pdf client poisoned fresh).2.

Definition overloaded : exn := Exception "APIError" (lit "overloaded").
Definition unsupported_filter : exn :=
  Exception "NotImplementedError" (lit "unsupported filter /JBIG2Decode").
Definition not_enough_data : exn :=
  Exception "ValueError" (lit "not enough image data").
Definition bad_json : exn :=
  Exception "JSONDecodeError" (lit "Expecting value: line 1 column 1 (char 0)").
Definition permission_denied : exn :=
  Exception "PermissionError" (lit "Permission denied").

(** The page loop of the fourth document, up to its truncated image. *)
Definition one_page_content : pystr := Eval vm_compute in page_section 1 (lit "One").
Definition before_truncated : result pystr * state (World := World) :=
  for_each (λ obj : pystr * XObject, xobject_body client 2 obj.2)
    [(lit "/Im", diagram)] (one_page_content ++ page_section 2 (lit "Two")) fresh.
Definition truncated_context : pystr := Eval vm_compute in
    match before_truncated.1 with
    | Ok fc => fc
    | Raise _ => []
    end.
Definition truncated_state : state (World := World) := Eval vm_compute in
  before_truncated.2.

End Demo.

(** ** The service and the review script on the small deployment *)

Module Desk.

Import Demo.

(** Three uploads: the two-page document declared as a PDF, the same
    bytes declared as plain text with a body that cannot be read, and a
    declared PDF whose body cannot be read. *)
Definition connection_lost : exn :=
  Exception "ClientDisconnect" (lit "connection lost").
Definition pdf_upload : UploadFile :=
  {| content_type := Some (lit "application/pdf"); read := Ok two_pages |}.
Definition text_upload : UploadFile :=
  {| content_type := Some (lit "text/plain"); read := Raise connection_lost |}.
Definition broken_upload : UploadFile :=
  {| content_type := Some (lit "application/pdf"); read := Raise connection_lost |}.

(** A client that raises on every image. *)
Definition failing_client : ClaudeClient (World := World) :=
  {| analyze_image := λ _ _ _ w, (Raise overloaded, S w) |}.

(** A photograph whose dictionary declares the size of the decoded image,
    and the same with a made-up size. *)
Definition photo : XObject :=
  image_xobject "/DCTDecode" 640 480 (Ok [Byte.x2a]).
Definition mislabelled_photo : XObject :=
  image_xobject "/DCTDecode" 1 1 (Ok [Byte.x2a]).

(** A form XObject, whose stream is nothing the pipeline could decode. *)
Definition form : XObject :=
  {| xobj_dict := {[ lit "/Subtype" := PdfName (lit "/Form") ]};
     get_data := Raise unsupported_filter |}.
(** A stream without a [/Subtype]. *)
Definition untyped : XObject :=
  {| xobj_dict := ∅; get_data := Ok [Byte.x2a] |}.

(** A cache file that says nothing, and two that say the wrong thing. *)
Definition empty_record : state (World := World) :=
  with_file (cache_file two_pages) (Json (PyDict [])).
Definition list_record : state (World := World) :=
  with_file (cache_file two_pages) (Json (PyList [PyInt 1])).
Definition detail_record : state (World := World) :=
  with_file (cache_file two_pages)
    (Json (PyDict [(lit "detail", PyStr (lit "Not Found"))])).

(** The environment, the encoder and the API of the client's
    constructor: the API answers with the media type it was sent. *)
Definition toy_getenv (name : string) : option pystr :=
  if String.eqb name "ANTHROPIC_API_KEY" then Some (lit "sk-test") else None.
Definition toy_b64encode (data : bytes) : pystr :=
  map (λ x, Byte.to_N x) data.
Definition toy_anthropic (api_key prompt media_type base64_data : pystr) (w : World)
    : result (list pystr) * World :=
  if bool_decide (api_key = lit "sk-test")
  then (Ok [lit "Seen: " ++ media_type], S w)
  else (Raise (Exception "AuthenticationError" (lit "invalid x-api-key")), w).
Definition toy_client : ClaudeClient (World := World) :=
  AnthropicClient toy_b64encode (toy_anthropic (lit "sk-test")).

(** The two services of the review script.  The parse service answers
    the first upload with a document and every later one with an error
    body; the chat model returns one choice. *)
Definition error_body : pyvalue :=
  PyDict [(lit "detail", PyStr (lit "Invalid document type. Please upload a PDF file."))].
Definition document_body : pyvalue :=
  PyDict [(lit "content", PyStr (lit "--- Page 1 ---"))].

#[export] Instance desk_services : Services World :=
  {| chat_completions_create := λ model messages w,
       (Ok [Some (lit "Looks good.")], S w);
     requests_post := λ url data w,
       (Ok {| json := Ok (match w with
                          | O => document_body
                          | S _ => error_body
                          end) |}, S w);
     open_rb := λ path, Ok [Byte.x01] |}.

(** A digest in hexadecimal, two digits to the byte. *)
Definition hex_digit (n : N) : N :=
  if (n <? 10)%N then (48 + n)%N else (87 + n)%N.
Definition hex_digest (b : bytes) : pystr :=
  flat_map (λ x, [hex_digit (Byte.to_N x / 16); hex_digit (Byte.to_N x mod 16)]) b.
Definition hex_libraries : Libraries :=
  {| sha256_hexdigest := hex_digest;
     PdfReader := toy_reader;
     Image_frombytes := toy_frombytes;
     Image_open := toy_open;
     validate_content := λ _,
       Raise (Exception "ValidationError" (lit "content: str type expected"));
     module_name := lit "__main__" |}.

Definition first_run : script_state := {| services := 0%nat; stdout := [] |}.
Definition later_run : script_state := {| services := 5%nat; stdout := [] |}.

End Desk.
Example literals_are_nearest :
  Float.truediv 4 5 = Ok Float.lit_0_8 ∧ Float.truediv 6 5 = Ok Float.lit_1_2.
Proof. split; vm_compute; reflexivity. Qed.

Example str_of_int_samples :
  str_of_int 1 = lit "1" ∧ str_of_int 12 = lit "12" ∧ str_of_int 0 = lit "0".
Proof. repeat split; vm_compute; reflexivity. Qed.

Example strip_sample :
  strip (nl ++ nl ++ lit "--- Page 1 ---" ++ nl ++ nl ++ lit " a b " ++ nl)
  = lit "--- Page 1 ---" ++ nl ++ nl ++ lit " a b".
Proof. vm_compute. reflexivity. Qed.

Example filter_samples :
  is_relevant_image 200 200 = Ok true ∧
  is_relevant_image 199 200 = Ok false ∧
  is_relevant_image 201 200 = Ok true ∧
  is_relevant_image 100 200 = Ok true ∧
  is_relevant_image (-100) (-100) = Ok false ∧
  is_relevant_image (2 ^ 1024) 1 = Raise OverflowError.
Proof. repeat split; vm_compute; reflexivity. Qed.

(** ** Facts about the filter *)

Section FilterFacts.

Import Float.

(** The sign of a rounded quotient is the sign it was asked for. *)
Lemma div_round_shape s a b :
  div_round s a b = S754_zero s ∨ div_round s a b = S754_infinity s
  ∨ div_round s a b = S754_nan
  ∨ ∃ m e, div_round s a b = S754_finite s m e.
Proof.
  unfold div_round.
  destruct (SFdiv_core_binary prec emax (Z.pos a) 0 (Z.pos b) 0) as [[mz ez] lz].
  unfold binary_round_aux.
  destruct (shr_fexp prec emax mz ez lz) as [mrs' e'].
  destruct (shr_fexp prec emax _ e' loc_Exact) as [mrs'' e''].
  destruct (shr_m mrs'') as [|m|m]; auto.
  destruct (e'' <=? emax - prec); eauto 6.
Qed.

Lemma is_relevant_image_nonzero width height :
  width ≠ 0 → height ≠ 0 →
  is_relevant_image width height =
    match div_round (xorb (is_negative width) (is_negative height))
            (Z.to_pos (Z.abs width)) (Z.to_pos (Z.abs height)) with
    | S754_infinity _ => Raise OverflowError
    | q => Ok (verdict (width * height) q)
    end.
Proof.
  intros Hw Hh. unfold is_relevant_image, truediv.
  destruct height as [|h|h]; [done|..]; (destruct width as [|w|w]; [done|..]);
    cbn [Z.eqb negb];
    match goal with |- context [div_round ?s ?a ?b] =>
      destruct (div_round s a b) end; reflexivity.
Qed.

Lemma is_relevant_image_zero_height width :
  is_relevant_image width 0 = Ok true.
Proof.
  unfold is_relevant_image. simpl.
  now rewrite andb_false_r.
Qed.

Lemma is_relevant_image_zero_width height :
  is_relevant_image 0 height = Ok true.
Proof.
  unfold is_relevant_image.
  destruct height as [|h|h]; simpl; reflexivity.
Qed.

(** Opposite signs: the ratio is negative, below the band. *)
Lemma is_relevant_image_opposite width height :
  width * height < 0 →
  is_relevant_image width height = Ok true
  ∨ is_relevant_image width height = Raise OverflowError.
Proof.
  intros Hneg. rewrite is_relevant_image_nonzero by lia.
  assert (xorb (is_negative width) (is_negative height) = true) as ->.
  { unfold is_negative.
    destruct (Z.ltb_spec width 0), (Z.ltb_spec height 0); simpl; nia. }
  destruct (div_round_shape true (Z.to_pos (Z.abs width)) (Z.to_pos (Z.abs height)))
    as [H|[H|[H|(m & e & H)]]]; rewrite H; auto; left; f_equal;
    unfold verdict; cbn; now rewrite andb_false_r.
Qed.

(** Two negative dimensions behave as their absolute values. *)
Lemma is_relevant_image_neg_neg a b :
  is_relevant_image (Z.neg a) (Z.neg b) = is_relevant_image (Z.pos a) (Z.pos b).
Proof. reflexivity. Qed.

(** At or above the pixel threshold the answer is [True] whenever the
    division returns. *)
Lemma is_relevant_image_large width height :
  40000 ≤ width * height →
  is_relevant_image width height = Ok true
  ∨ is_relevant_image width height = Raise OverflowError.
Proof.
  intros Hbig. rewrite is_relevant_image_nonzero by lia.
  unfold verdict.
  assert ((width * height <? 40000) = false) as -> by lia.
  match goal with |- context [div_round ?s ?a ?b] =>
    destruct (div_round s a b) end; auto.
Qed.

End FilterFacts.

(** ** Facts about rounded quotients *)

Section RoundingFacts.

Import Float.

(** The number of binary digits of a positive number. *)
Lemma digits2_pos_bounds p :
  2 ^ (Z.pos (digits2_pos p) - 1) ≤ Z.pos p < 2 ^ Z.pos (digits2_pos p).
Proof.
  induction p as [p IH|p IH|]; cbn [digits2_pos].
  - rewrite Pos2Z.inj_succ.
    replace (Z.succ (Z.pos (digits2_pos p)) - 1) with (Z.succ (Z.pos (digits2_pos p) - 1)) by lia.
    rewrite !Z.pow_succ_r by lia. lia.
  - rewrite Pos2Z.inj_succ.
    replace (Z.succ (Z.pos (digits2_pos p)) - 1) with (Z.succ (Z.pos (digits2_pos p) - 1)) by lia.
    rewrite !Z.pow_succ_r by lia. lia.
  - simpl. lia.
Qed.

Lemma Zdigits2_nonneg z : 0 ≤ Zdigits2 z.
Proof. destruct z; simpl; lia. Qed.

Lemma Zdigits2_bounds z :
  0 < z → 2 ^ (Zdigits2 z - 1) ≤ z < 2 ^ Zdigits2 z.
Proof. destruct z as [|p|p]; [lia| |lia]. intros _. apply digits2_pos_bounds. Qed.

(** [k] digits at least when [2^(k-1) <= z]; at most when [z < 2^k]. *)
Lemma Zdigits2_ge z k : 0 < z → 2 ^ (k - 1) ≤ z → k ≤ Zdigits2 z.
Proof.
  intros Hz Hk. destruct (Z.le_gt_cases k (Zdigits2 z)) as [|Hlt]; [done|].
  pose proof (Zdigits2_bounds z Hz) as [_ Hup].
  pose proof (Zdigits2_nonneg z).
  assert (2 ^ Zdigits2 z ≤ 2 ^ (k - 1)) by (apply Z.pow_le_mono_r; lia).
  lia.
Qed.

Lemma Zdigits2_le z k : 0 ≤ z → 0 ≤ k → z < 2 ^ k → Zdigits2 z ≤ k.
Proof.
  intros Hz Hk Hlt. destruct (Z.eq_dec z 0) as [->|Hnz]; [done|].
  destruct (Z.le_gt_cases (Zdigits2 z) k) as [|Hgt]; [done|].
  pose proof (Zdigits2_bounds z ltac:(lia)) as [Hlow _].
  assert (2 ^ k ≤ 2 ^ (Zdigits2 z - 1)) by (apply Z.pow_le_mono_r; lia).
  lia.
Qed.

Lemma Zdigits2_lt_pow2 z : 0 ≤ z → z < 2 ^ Zdigits2 z.
Proof.
  intros Hz. destruct (Z.eq_dec z 0) as [->|]; [done|].
  apply Zdigits2_bounds. lia.
Qed.

Lemma Zdigits2_div_pow2 m n :
  0 ≤ m → 0 ≤ n → Zdigits2 (m / 2 ^ n) = Z.max 0 (Zdigits2 m - n).
Proof.
  intros Hm Hn. pose proof (Zdigits2_nonneg m) as Hd.
  assert (0 < 2 ^ n) as Hpow by (apply Z.pow_pos_nonneg; lia).
  destruct (Z.le_gt_cases (Zdigits2 m) n) as [Hsmall|Hbig].
  - rewrite Z.div_small; [simpl; lia|].
    split; [done|]. pose proof (Zdigits2_lt_pow2 m Hm).
    assert (2 ^ Zdigits2 m ≤ 2 ^ n) by (apply Z.pow_le_mono_r; lia). lia.
  - assert (0 < m) as Hpos by (destruct m; simpl in *; lia).
    destruct (Zdigits2_bounds m Hpos) as [Hlow Hup].
    assert (2 ^ (Zdigits2 m - n - 1) ≤ m / 2 ^ n) as Hqlow.
    { apply Z.div_le_lower_bound; [done|].
      rewrite <- Z.pow_add_r by lia.
      by replace (n + (Zdigits2 m - n - 1)) with (Zdigits2 m - 1) by lia. }
    assert (m / 2 ^ n < 2 ^ (Zdigits2 m - n)) as Hqup.
    { apply Z.div_lt_upper_bound; [done|].
      rewrite <- Z.pow_add_r by lia.
      by replace (n + (Zdigits2 m - n)) with (Zdigits2 m) by lia. }
    assert (0 < m / 2 ^ n).
    { assert (0 < 2 ^ (Zdigits2 m - n - 1)) by (apply Z.pow_pos_nonneg; lia). lia. }
    apply Z.le_antisymm.
    + rewrite Z.max_r by lia. apply Zdigits2_le; lia.
    + rewrite Z.max_r by lia. apply Zdigits2_ge; [done|].
      by replace (Zdigits2 m - n - 1) with (Zdigits2 m - n - 1) in Hqlow by lia.
Qed.

Lemma Zdigits2_succ_le a b :
  0 ≤ a → 0 ≤ b → a ≤ b + 1 → Zdigits2 a ≤ Zdigits2 b + 1.
Proof.
  intros Ha Hb Hab. pose proof (Zdigits2_nonneg b).
  apply Zdigits2_le; [done|lia|].
  pose proof (Zdigits2_lt_pow2 b Hb).
  rewrite Z.pow_add_r, Z.pow_1_r by lia. lia.
Qed.

Lemma Zdigits2_mono a b : 0 < a → a ≤ b → Zdigits2 a ≤ Zdigits2 b.
Proof.
  intros Ha Hab. apply Zdigits2_ge; [lia|].
  destruct (Zdigits2_bounds a Ha). lia.
Qed.

(** Shifting a mantissa right halves it. *)
Lemma shr_1_m mrs : 0 ≤ shr_m mrs → shr_m (shr_1 mrs) = shr_m mrs / 2.
Proof.
  intros Hm. rewrite <- Z.div2_div.
  destruct mrs as [m r s]. simpl in *.
  destruct m as [|[p|p|]|p]; simpl; lia || done.
Qed.

Lemma iter_pos_shr_1_m p mrs :
  0 ≤ shr_m mrs →
  shr_m (SpecFloat.iter_pos shr_1 p mrs) = shr_m mrs / 2 ^ Z.pos p.
Proof.
  assert (∀ q, 0 < 2 ^ Z.pos q) as Hpow by (intros; apply Z.pow_pos_nonneg; lia).
  revert mrs. induction p as [p IH|p IH|]; intros mrs Hm; cbn [SpecFloat.iter_pos].
  - assert (0 ≤ shr_m (shr_1 mrs)) as H1.
    { rewrite shr_1_m by done. apply Z.div_pos; lia. }
    assert (0 ≤ shr_m (SpecFloat.iter_pos shr_1 p (shr_1 mrs))) as H2.
    { rewrite IH by done. apply Z.div_pos; [done|apply Hpow]. }
    rewrite IH, IH, shr_1_m by done.
    pose proof (Hpow p).
    rewrite !Z.div_div by lia. f_equal.
    replace (Z.pos p~1) with (1 + Z.pos p + Z.pos p) by lia.
    rewrite !Z.pow_add_r, Z.pow_1_r by lia. ring.
  - assert (0 ≤ shr_m (SpecFloat.iter_pos shr_1 p mrs)) as H2.
    { rewrite IH by done. apply Z.div_pos; [done|apply Hpow]. }
    rewrite IH, IH by done.
    pose proof (Hpow p).
    rewrite !Z.div_div by lia. f_equal.
    replace (Z.pos p~0) with (Z.pos p + Z.pos p) by lia.
    rewrite !Z.pow_add_r by lia. ring.
  - by rewrite shr_1_m.
Qed.

Lemma shr_m_of_loc m l : shr_m (shr_record_of_loc m l) = m.
Proof. by destruct l as [|[]]. Qed.

(** [shr_fexp] brings the exponent up to the canonical one. *)
Lemma shr_fexp_spec m e l :
  0 ≤ m →
  (shr_fexp prec emax m e l).2 = Z.max e (fexp prec emax (Zdigits2 m + e))
  ∧ shr_m (shr_fexp prec emax m e l).1
    = m / 2 ^ ((shr_fexp prec emax m e l).2 - e).
Proof.
  intros Hm. unfold shr_fexp, shr.
  destruct (fexp prec emax (Zdigits2 m + e) - e) as [|n|n] eqn:Hn; cbn [fst snd].
  - rewrite shr_m_of_loc, Z.sub_diag, Z.pow_0_r, Z.div_1_r. lia.
  - rewrite iter_pos_shr_1_m by (by rewrite shr_m_of_loc).
    rewrite shr_m_of_loc. split; [lia|]. f_equal. f_equal. lia.
  - rewrite shr_m_of_loc, Z.sub_diag, Z.pow_0_r, Z.div_1_r. lia.
Qed.

Lemma round_nearest_even_bounds m l :
  m ≤ round_nearest_even m l ≤ m + 1.
Proof.
  unfold round_nearest_even.
  destruct l as [|[]]; [lia|destruct (Z.even m); lia|lia..].
Qed.

(** The rounding of a nonnegative mantissa, in closed form. *)
Lemma binary_round_aux_spec s q e l :
  0 ≤ q →
  ∃ m1 m2 e1 e2,
    e1 = Z.max e (fexp prec emax (Zdigits2 q + e))
    ∧ q / 2 ^ (e1 - e) ≤ m1 ≤ q / 2 ^ (e1 - e) + 1
    ∧ e2 = Z.max e1 (fexp prec emax (Zdigits2 m1 + e1))
    ∧ m2 = m1 / 2 ^ (e2 - e1)
    ∧ binary_round_aux prec emax s q e l =
        match m2 with
        | 0 => S754_zero s
        | Z.pos m => if e2 <=? emax - prec then S754_finite s m e2
                     else S754_infinity s
        | Z.neg _ => S754_nan
        end.
Proof.
  intros Hq. unfold binary_round_aux.
  destruct (shr_fexp_spec q e l Hq) as [He1 Hm1].
  destruct (shr_fexp prec emax q e l) as [mrs' e1]. cbn [fst snd] in *.
  set (m1 := round_nearest_even (shr_m mrs') (loc_of_shr_record mrs')).
  assert (0 ≤ e1 - e) as Hshift by lia.
  assert (0 ≤ shr_m mrs') as Hm1pos.
  { rewrite Hm1. apply Z.div_pos; [done|]. apply Z.pow_pos_nonneg; lia. }
  pose proof (round_nearest_even_bounds (shr_m mrs') (loc_of_shr_record mrs')) as Hrne.
  fold m1 in Hrne.
  destruct (shr_fexp_spec m1 e1 loc_Exact ltac:(lia)) as [He2 Hm2].
  destruct (shr_fexp prec emax m1 e1 loc_Exact) as [mrs'' e2]. cbn [fst snd] in *.
  exists m1, (shr_m mrs''), e1, e2. rewrite <- Hm1.
  split; [done|]. split; [lia|]. by split_and!.
Qed.

(** The divisor core on two positive integers. *)
Lemma SFdiv_core_binary_spec a b :
  ∃ loc,
    SFdiv_core_binary prec emax (Z.pos a) 0 (Z.pos b) 0
    = (Z.pos a * 2 ^ (- Z.min (fexp prec emax (Zdigits2 (Z.pos a) - Zdigits2 (Z.pos b))) 0)
         / Z.pos b,
       Z.min (fexp prec emax (Zdigits2 (Z.pos a) - Zdigits2 (Z.pos b))) 0,
       loc).
Proof.
  unfold SFdiv_core_binary. rewrite !Z.add_0_r, Z.sub_diag.
  set (e' := Z.min _ 0).
  assert (e' ≤ 0) as He' by (unfold e'; lia).
  set (m' := match 0 - e' with 0 => Z.pos a | Z.pos _ => Z.shiftl (Z.pos a) (0 - e') | Z.neg _ => 0 end).
  assert (m' = Z.pos a * 2 ^ (- e')) as Hm'.
  { unfold m'. destruct (0 - e') as [|n|n] eqn:Hs.
    - replace (- e') with 0 by lia. lia.
    - rewrite Z.shiftl_mul_pow2 by lia. f_equal. f_equal. lia.
    - lia. }
  unfold Z.div. rewrite <- Hm'.
  destruct (Z.div_eucl m' (Z.pos b)) as [q r]. by eexists.
Qed.

Lemma fexp_eq x : fexp prec emax x = Z.max (x - 53) (-1074).
Proof. reflexivity. Qed.

Lemma pow2_split x y : 0 ≤ x → 0 ≤ y → 2 ^ (x + y) = 2 ^ x * 2 ^ y.
Proof. intros. by rewrite Z.pow_add_r. Qed.

(** The quotient [a * 2^s / b] has at most [digits a + s - digits b + 1]
    digits, and none at all when that is negative. *)
Lemma quotient_digits_upper a b s :
  0 ≤ s →
  Zdigits2 (Z.pos a * 2 ^ s / Z.pos b)
  ≤ Z.max 0 (Zdigits2 (Z.pos a) + s - Zdigits2 (Z.pos b) + 1).
Proof.
  intros Hs.
  destruct (Zdigits2_bounds (Z.pos a) ltac:(lia)) as [_ Ha].
  destruct (Zdigits2_bounds (Z.pos b) ltac:(lia)) as [Hb _].
  pose proof (Zdigits2_nonneg (Z.pos a)) as Hd1.
  assert (1 ≤ Zdigits2 (Z.pos b)) as Hd2 by (simpl; lia).
  set (d1 := Zdigits2 (Z.pos a)) in *. set (d2 := Zdigits2 (Z.pos b)) in *.
  assert (0 < 2 ^ s) as Hps by (apply Z.pow_pos_nonneg; lia).
  assert (Z.pos a * 2 ^ s < 2 ^ (d1 + s)) as Hnum.
  { rewrite pow2_split by lia. nia. }
  assert (0 ≤ Z.pos a * 2 ^ s) as Hnum0 by nia.
  destruct (Z.le_gt_cases 0 (d1 + s - d2 + 1)) as [Hk|Hk].
  - rewrite Z.max_r by done. apply Zdigits2_le; [|done|].
    + apply Z.div_pos; lia.
    + apply Z.div_lt_upper_bound; [lia|].
      assert (2 ^ (d1 + s) = 2 ^ (d2 - 1) * 2 ^ (d1 + s - d2 + 1)) as Heq.
      { rewrite <- pow2_split by lia. f_equal. lia. }
      assert (0 < 2 ^ (d1 + s - d2 + 1)) by (apply Z.pow_pos_nonneg; lia).
      nia.
  - rewrite Z.div_small; [simpl; lia|]. split; [done|].
    assert (2 ^ (d1 + s) ≤ 2 ^ (d2 - 1)) by (apply Z.pow_le_mono_r; lia).
    lia.
Qed.

(** It has at least [digits a + s - digits b] digits. *)
Lemma quotient_digits_lower a b s :
  0 ≤ s → 0 < Zdigits2 (Z.pos a) + s - Zdigits2 (Z.pos b) →
  Zdigits2 (Z.pos a) + s - Zdigits2 (Z.pos b)
  ≤ Zdigits2 (Z.pos a * 2 ^ s / Z.pos b).
Proof.
  intros Hs Hk.
  destruct (Zdigits2_bounds (Z.pos a) ltac:(lia)) as [Ha _].
  destruct (Zdigits2_bounds (Z.pos b) ltac:(lia)) as [_ Hb].
  assert (1 ≤ Zdigits2 (Z.pos a)) as Hd1 by (simpl; lia).
  assert (1 ≤ Zdigits2 (Z.pos b)) as Hd2 by (simpl; lia).
  set (d1 := Zdigits2 (Z.pos a)) in *. set (d2 := Zdigits2 (Z.pos b)) in *.
  assert (0 < 2 ^ s) as Hps by (apply Z.pow_pos_nonneg; lia).
  assert (2 ^ (d1 - 1 + s) ≤ Z.pos a * 2 ^ s) as Hnum.
  { rewrite pow2_split by lia. nia. }
  assert (2 ^ (d1 - 1 + s) = 2 ^ d2 * 2 ^ (d1 + s - d2 - 1)) as Heq.
  { rewrite <- pow2_split by lia. f_equal. lia. }
  assert (0 < 2 ^ (d1 + s - d2 - 1)) as Hpk by (apply Z.pow_pos_nonneg; lia).
  assert (2 ^ (d1 + s - d2 - 1) ≤ Z.pos a * 2 ^ s / Z.pos b) as Hq.
  { apply Z.div_le_lower_bound; [lia|]. nia. }
  apply Zdigits2_ge; [lia|done].
Qed.

(** [div_round] in closed form: the quotient [q] at exponent [e'], brought
    to the canonical exponent [e1], rounded to [m1], and brought to the
    canonical exponent again. *)
Lemma div_round_closed s a b :
  let d := Zdigits2 (Z.pos a) - Zdigits2 (Z.pos b) in
  let e' := Z.min (Z.max (d - 53) (-1074)) 0 in
  let q := Z.pos a * 2 ^ (- e') / Z.pos b in
  ∃ m1 m2 e1 e2,
    e1 = Z.max e' (Z.max (Zdigits2 q + e' - 53) (-1074))
    ∧ q / 2 ^ (e1 - e') ≤ m1 ≤ q / 2 ^ (e1 - e') + 1
    ∧ e2 = Z.max e1 (Z.max (Zdigits2 m1 + e1 - 53) (-1074))
    ∧ m2 = m1 / 2 ^ (e2 - e1)
    ∧ div_round s a b =
        match m2 with
        | 0 => S754_zero s
        | Z.pos m => if e2 <=? 971 then S754_finite s m e2 else S754_infinity s
        | Z.neg _ => S754_nan
        end.
Proof.
  intros d e' q. unfold div_round.
  destruct (SFdiv_core_binary_spec a b) as [loc ->].
  rewrite fexp_eq. fold d e' q.
  assert (0 ≤ q) as Hq.
  { apply Z.div_pos; [|lia].
    assert (0 < 2 ^ (- e')) by (apply Z.pow_pos_nonneg; lia). nia. }
  destruct (binary_round_aux_spec s q e' loc Hq)
    as (m1 & m2 & e1 & e2 & He1 & Hm1 & He2 & Hm2 & ->).
  rewrite !fexp_eq in *. by exists m1, m2, e1, e2.
Qed.

(** The exponents and digit counts along [div_round], as linear facts:
    [qd] and [md] are the digits of the quotient and of the rounded
    mantissa. *)
Lemma div_round_digits s a b :
  ∃ qd md m2 e' e1 e2,
    e' = Z.min (Z.max (Zdigits2 (Z.pos a) - Zdigits2 (Z.pos b) - 53) (-1074)) 0
    ∧ 0 ≤ qd ≤ Z.max 0 (Zdigits2 (Z.pos a) - Zdigits2 (Z.pos b) - e' + 1)
    ∧ (0 < Zdigits2 (Z.pos a) - Zdigits2 (Z.pos b) - e' →
       Zdigits2 (Z.pos a) - Zdigits2 (Z.pos b) - e' ≤ qd)
    ∧ e1 = Z.max e' (Z.max (qd + e' - 53) (-1074))
    ∧ 0 ≤ md ≤ Z.max 0 (qd - (e1 - e')) + 1
    ∧ (0 < qd - (e1 - e') → qd - (e1 - e') ≤ md)
    ∧ e2 = Z.max e1 (Z.max (md + e1 - 53) (-1074))
    ∧ 0 ≤ m2
    ∧ Zdigits2 m2 = Z.max 0 (md - (e2 - e1))
    ∧ div_round s a b =
        match m2 with
        | 0 => S754_zero s
        | Z.pos m => if e2 <=? 971 then S754_finite s m e2 else S754_infinity s
        | Z.neg _ => S754_nan
        end.
Proof.
  destruct (div_round_closed s a b)
    as (m1 & m2 & e1 & e2 & He1 & Hm1 & He2 & Hm2 & Hres).
  set (d := Zdigits2 (Z.pos a) - Zdigits2 (Z.pos b)) in *.
  set (e' := Z.min (Z.max (d - 53) (-1074)) 0) in *.
  assert (e' ≤ 0) as He' by (unfold e'; lia).
  set (q := Z.pos a * 2 ^ (- e') / Z.pos b) in *.
  pose proof (quotient_digits_upper a b (- e') ltac:(lia)) as Hq. fold q in Hq.
  assert (0 < d - e' → d - e' ≤ Zdigits2 q) as Hql.
  { intros Hpos. unfold d in *.
    pose proof (quotient_digits_lower a b (- e') ltac:(lia) ltac:(lia)) as Hl.
    fold q in Hl. lia. }
  assert (0 ≤ q) as Hq0.
  { apply Z.div_pos; [|lia].
    assert (0 < 2 ^ (- e')) by (apply Z.pow_pos_nonneg; lia). nia. }
  assert (e' ≤ e1) as He1' by (rewrite He1; lia).
  assert (e1 ≤ e2) as He2' by (rewrite He2; lia).
  assert (0 ≤ q / 2 ^ (e1 - e')) as Hsh0.
  { apply Z.div_pos; [done|]. apply Z.pow_pos_nonneg; lia. }
  pose proof (Zdigits2_div_pow2 q (e1 - e') Hq0 ltac:(lia)) as Hsh.
  pose proof (Zdigits2_succ_le m1 (q / 2 ^ (e1 - e')) ltac:(lia) Hsh0 ltac:(lia)) as Hm1d.
  assert (0 < Zdigits2 q - (e1 - e') → Zdigits2 q - (e1 - e') ≤ Zdigits2 m1) as Hm1l.
  { intros Hpos.
    assert (0 < q / 2 ^ (e1 - e')) as Hshpos.
    { destruct (Z.eq_dec (q / 2 ^ (e1 - e')) 0) as [Hz|]; [|lia].
      rewrite Hz in Hsh. simpl in Hsh. lia. }
    pose proof (Zdigits2_mono (q / 2 ^ (e1 - e')) m1 Hshpos ltac:(lia)). lia. }
  pose proof (Zdigits2_div_pow2 m1 (e2 - e1) ltac:(lia) ltac:(lia)) as Hm2d.
  rewrite <- Hm2 in Hm2d.
  assert (0 ≤ m2) as Hm20.
  { rewrite Hm2. apply Z.div_pos; [lia|]. apply Z.pow_pos_nonneg; lia. }
  pose proof (Zdigits2_nonneg q). pose proof (Zdigits2_nonneg m1).
  exists (Zdigits2 q), (Zdigits2 m1), m2, e', e1, e2.
  fold d. clearbody q. rewrite Hsh in Hm1d.
  assert (Zdigits2 q ≤ Z.max 0 (d - e' + 1)) as Hq' by (unfold d; lia).
  clearbody d.
  split_and!; first [done|lia].
Qed.

(** No overflow from a dividend below [2^1023]. *)
Lemma div_round_no_overflow s a b s' :
  Zdigits2 (Z.pos a) ≤ 1023 → div_round s a b ≠ S754_infinity s'.
Proof.
  intros Ha.
  destruct (div_round_digits s a b)
    as (qd & md & m2 & e' & e1 & e2 & He' & Hqd & _ & He1 & Hmd & _ & He2 & _ & _ & ->).
  assert (1 ≤ Zdigits2 (Z.pos b)) as Hd2 by (simpl; lia).
  assert (e2 ≤ 971) as He2b by lia.
  destruct m2 as [|m|m]; [done| |done].
  by assert ((e2 <=? 971) = true) as -> by lia.
Qed.

(** A quotient below 1/4 rounds below the band. *)
Lemma div_round_far_below a b :
  Zdigits2 (Z.pos a) + 3 ≤ Zdigits2 (Z.pos b) →
  le lit_0_8 (div_round false a b) = false.
Proof.
  intros Hab.
  destruct (div_round_digits false a b)
    as (qd & md & m2 & e' & e1 & e2 & He' & Hqd & _ & He1 & Hmd & _ & He2 & _ & _ & ->).
  assert (e2 ≤ -54) as He2b by lia.
  destruct m2 as [|m|m]; [done| |done].
  assert ((e2 <=? 971) = true) as -> by lia.
  unfold le, SFleb, SFcompare, lit_0_8.
  by destruct (Z.compare_spec (-53) e2); [lia..|].
Qed.

(** A quotient of at least 2, of two numbers below [2^1000], rounds
    above the band. *)
Lemma div_round_far_above a b :
  Zdigits2 (Z.pos b) + 2 ≤ Zdigits2 (Z.pos a) → Zdigits2 (Z.pos a) ≤ 1000 →
  le (div_round false a b) lit_1_2 = false.
Proof.
  intros Hab Hsmall.
  destruct (div_round_digits false a b)
    as (qd & md & m2 & e' & e1 & e2 & He' & Hqd & Hql & He1 & Hmd & Hml & He2
        & Hm20 & Hm2d & ->).
  assert (1 ≤ Zdigits2 (Z.pos b)) as Hd2 by (simpl; lia).
  assert (-51 ≤ e2 ≤ 971 ∧ 0 < md - (e2 - e1)) as [He2b Hpos] by lia.
  destruct m2 as [|m|m].
  - simpl in Hm2d. lia.
  - assert ((e2 <=? 971) = true) as -> by lia.
    unfold le, SFleb, SFcompare, lit_1_2.
    by destruct (Z.compare_spec e2 (-52)); [lia..|].
  - done.
Qed.

End RoundingFacts.
(** ** The filter against the exact band *)

Section BandFacts.

Import Float.

Lemma check_from_spec f lo n x :
  check_from f lo n = true → lo ≤ x < lo + Z.of_nat n → f x = true.
Proof.
  revert lo. induction n as [|n IH]; intros lo; cbn [check_from]; [lia|].
  intros [Hlo Hrest]%andb_true_iff Hx.
  destruct (Z.eq_dec x lo) as [->|]; [done|].
  apply (IH (lo + 1)); [done|lia].
Qed.

(** Every near pair, by computation. *)
Lemma near_pairs_checked : check_from row_agrees 1 565 = true.
Proof. vm_compute. reflexivity. Qed.

Lemma near_pair_agrees a b :
  Z.pos b < 8 * Z.pos a → Z.pos a < 4 * Z.pos b → Z.pos a * Z.pos b < 40000 →
  le lit_0_8 (div_round false a b) && le (div_round false a b) lit_1_2
  = in_band (Z.pos a) (Z.pos b).
Proof.
  intros Hlow Hhigh Hsmall.
  assert (Z.pos b ≤ 565) as Hb by nia.
  assert (1 ≤ Z.pos b < 1 + Z.of_nat 565) as Hb' by lia.
  pose proof (check_from_spec row_agrees 1 565 (Z.pos b) near_pairs_checked
                Hb') as Hrow.
  unfold row_agrees in Hrow.
  assert (Z.pos b / 8 + 1 ≤ Z.pos a) as Ha1.
  { assert (Z.pos b / 8 < Z.pos a); [|lia].
    apply Z.div_lt_upper_bound; lia. }
  assert (Z.pos a ≤ 39999 / Z.pos b) as Ha2.
  { apply Z.div_le_lower_bound; lia. }
  assert (0 ≤ Z.pos b / 8) by (apply Z.div_pos; lia).
  assert (Z.pos b / 8 + 1 ≤ Z.pos a <
   Z.pos b / 8 + 1 + Z.of_nat (Z.to_nat (Z.min (4 * Z.pos b - 1) (39999 / Z.pos b) - Z.pos b / 8))) as Hr.
  { generalize dependent (Z.pos b / 8). generalize dependent (39999 / Z.pos b). intros. lia. }
  pose proof (check_from_spec _ _ _ (Z.pos a) Hrow Hr) as Hpair.
  unfold band_agrees in Hpair. by apply eqb_prop in Hpair.
Qed.

(** The float test of the filter is the exact test on every pair of
    positive dimensions with fewer than 40,000 pixels. *)
Lemma band_test_exact a b :
  Z.pos a * Z.pos b < 40000 →
  le lit_0_8 (div_round false a b) && le (div_round false a b) lit_1_2
  = in_band (Z.pos a) (Z.pos b).
Proof.
  intros Hsmall.
  destruct (Zdigits2_bounds (Z.pos a) ltac:(lia)) as [Ha1 Ha2].
  destruct (Zdigits2_bounds (Z.pos b) ltac:(lia)) as [Hb1 Hb2].
  assert (1 ≤ Zdigits2 (Z.pos a)) as Hda by (simpl; lia).
  assert (1 ≤ Zdigits2 (Z.pos b)) as Hdb by (simpl; lia).
  destruct (Z.le_gt_cases (4 * Z.pos b) (Z.pos a)) as [Hfar|Hhigh].
  { rewrite div_round_far_above, andb_false_r.
    - symmetry. apply andb_false_iff. right. apply Z.leb_gt. lia.
    - apply Zdigits2_ge; [lia|].
      replace (Zdigits2 (Z.pos b) + 2 - 1) with (2 + (Zdigits2 (Z.pos b) - 1)) by lia.
      rewrite pow2_split by lia. change (2 ^ 2) with 4. lia.
    - apply Zdigits2_le; [lia..|].
      assert (2 ^ 16 ≤ 2 ^ 1000) by (apply Z.pow_le_mono_r; lia). lia. }
  destruct (Z.le_gt_cases (8 * Z.pos a) (Z.pos b)) as [Hfar|Hlow].
  { rewrite div_round_far_below.
    - symmetry. apply andb_false_iff. left. apply Z.leb_gt. lia.
    - assert (Zdigits2 (Z.pos a) + 3 ≤ Zdigits2 (Z.pos b)); [|lia].
      apply Zdigits2_ge; [lia|].
      replace (Zdigits2 (Z.pos a) + 3 - 1) with (3 + (Zdigits2 (Z.pos a) - 1)) by lia.
      rewrite pow2_split by lia. change (2 ^ 3) with 8. lia. }
  by apply near_pair_agrees.
Qed.

End BandFacts.

(** ** The filter on all integers *)

Section FilterPolicy.

Import Float.

Lemma digits_below_2_1023 a : Z.pos a < 2 ^ 1023 → Zdigits2 (Z.pos a) ≤ 1023.
Proof. intros Ha. by apply Zdigits2_le. Qed.

(** The division of two non-zero integers returns when the dividend is
    below [2^1023] in absolute value. *)
Lemma div_round_returns s a b :
  Z.pos a < 2 ^ 1023 →
  match div_round s a b with
  | S754_infinity _ => False
  | _ => True
  end.
Proof.
  intros Ha%digits_below_2_1023.
  pose proof (λ s', div_round_no_overflow s a b s' Ha) as Hno.
  destruct (div_round s a b) as [| s'| |]; try done. by destruct (Hno s').
Qed.

Lemma is_relevant_image_returns width height :
  Z.abs width < 2 ^ 1023 → ∃ r, is_relevant_image width height = Ok r.
Proof.
  intros Hw.
  destruct (Z.eq_dec height 0) as [->|Hh].
  { exists true. apply is_relevant_image_zero_height. }
  destruct (Z.eq_dec width 0) as [->|Hw0].
  { exists true. apply is_relevant_image_zero_width. }
  rewrite is_relevant_image_nonzero by done.
  pose proof (div_round_returns
                (xorb (is_negative width) (is_negative height))
                (Z.to_pos (Z.abs width)) (Z.to_pos (Z.abs height))) as Hret.
  rewrite Z2Pos.id in Hret by lia. specialize (Hret Hw).
  destruct (div_round _ _ _); by eauto.
Qed.

(** Positive dimensions with fewer than 40,000 pixels. *)
Lemma is_relevant_image_small a b :
  Z.pos a * Z.pos b < 40000 →
  is_relevant_image (Z.pos a) (Z.pos b) = Ok (negb (in_band (Z.pos a) (Z.pos b))).
Proof.
  intros Hsmall. rewrite is_relevant_image_nonzero by done.
  cbn [is_negative Z.ltb Z.compare xorb Z.abs Z.to_pos].
  assert (Z.pos a < 2 ^ 1023) as Ha.
  { assert (2 ^ 16 ≤ 2 ^ 1023) by (apply Z.pow_le_mono_r; lia). nia. }
  pose proof (div_round_returns false a b Ha) as Hret.
  pose proof (band_test_exact a b Hsmall) as Hband.
  unfold verdict.
  assert ((Z.pos a * Z.pos b <? 40000) = true) as -> by lia.
  change (Z.to_pos (Z.abs (Z.pos a))) with a.
  change (Z.to_pos (Z.abs (Z.pos b))) with b.
  destruct (div_round false a b); try done; cbv iota beta; by rewrite Hband.
Qed.

Lemma ratio_in_band_pos a b :
  ratio_in_band (Z.pos a) (Z.pos b) ↔ in_band (Z.pos a) (Z.pos b) = true.
Proof. unfold ratio_in_band, in_band. rewrite andb_true_iff, !Z.leb_le. lia. Qed.

Lemma ratio_in_band_neg a b :
  ratio_in_band (Z.neg a) (Z.neg b) ↔ in_band (Z.pos a) (Z.pos b) = true.
Proof. unfold ratio_in_band, in_band. rewrite andb_true_iff, !Z.leb_le. lia. Qed.

(** Where the specification's condition holds the filter answers [False];
    elsewhere it answers [True], unless the division overflows. *)
Lemma is_relevant_image_policy width height :
  (small_near_square width height → is_relevant_image width height = Ok false)
  ∧ (¬ small_near_square width height →
     is_relevant_image width height = Ok true
     ∨ is_relevant_image width height = Raise OverflowError).
Proof.
  unfold small_near_square.
  destruct height as [|b|b].
  { split; [unfold ratio_in_band; lia|]. intros _. left.
    apply is_relevant_image_zero_height. }
  - destruct width as [|a|a].
    + split; [unfold ratio_in_band; lia|]. intros _. left.
      apply is_relevant_image_zero_width.
    + destruct (Z.lt_ge_cases (Z.pos a * Z.pos b) 40000) as [Hsmall|Hbig].
      * rewrite is_relevant_image_small, ratio_in_band_pos by done.
        destruct (in_band _ _); simpl.
        -- split; [done|]. intros Hn. by destruct Hn.
        -- split; [by intros [_ ?]|]. by left.
      * split; [lia|]. intros _. apply is_relevant_image_large. lia.
    + split; [unfold ratio_in_band; lia|]. intros _.
      apply is_relevant_image_opposite. lia.
  - destruct width as [|a|a].
    + split; [unfold ratio_in_band; lia|]. intros _. left.
      apply is_relevant_image_zero_width.
    + split; [unfold ratio_in_band; lia|]. intros _.
      apply is_relevant_image_opposite. lia.
    + rewrite is_relevant_image_neg_neg.
      replace (Z.neg a * Z.neg b) with (Z.pos a * Z.pos b) by lia.
      destruct (Z.lt_ge_cases (Z.pos a * Z.pos b) 40000) as [Hsmall|Hbig].
      * rewrite is_relevant_image_small, ratio_in_band_neg by done.
        destruct (in_band _ _); simpl.
        -- split; [done|]. intros Hn. by destruct Hn.
        -- split; [by intros [_ ?]|]. by left.
      * split; [lia|]. intros _. apply is_relevant_image_large. lia.
Qed.

End FilterPolicy.

(** ** Facts about strings *)

Lemma lstrip_head s c : head (lstrip s) = Some c → isspace c = false.
Proof.
  induction s as [|d s IH]; simpl; [done|].
  destruct (isspace d) eqn:Hd; [done|].
  simpl. intros [= <-]. done.
Qed.

Lemma lstrip_suffix s : ∃ l, s = l ++ lstrip s ∧ forallb isspace l = true.
Proof.
  induction s as [|d s (l & Hs & Hl)]; simpl.
  - by exists [].
  - destruct (isspace d) eqn:Hd.
    + exists (d :: l). simpl. rewrite Hd, Hl. split; [by f_equal|done].
    + by exists [].
Qed.

Lemma head_rev_last {A} (l : list A) : head (rev l) = last l.
Proof.
  induction l as [|x l IH] using rev_ind; [done|].
  by rewrite rev_app_distr, last_snoc.
Qed.

Lemma last_rev_head {A} (l : list A) : last (rev l) = head l.
Proof. by rewrite <- head_rev_last, rev_involutive. Qed.

(** Stripping at the left end keeps a clean right end clean. *)
Lemma lstrip_last s c :
  (∀ d, last s = Some d → isspace d = false) →
  last (lstrip s) = Some c → isspace c = false.
Proof.
  induction s as [|d s IH]; simpl; [done|].
  intros Hlast. destruct (isspace d) eqn:Hd; [|by auto].
  apply IH. intros e He. apply Hlast.
  destruct s; [done|]. done.
Qed.

Lemma strip_trimmed s : trimmed (strip s).
Proof.
  unfold strip, rstrip. split; intros c Hc.
  - rewrite head_rev_last in Hc.
    eapply lstrip_last; [|done]. intros d.
    rewrite last_rev_head. apply lstrip_head.
  - rewrite last_rev_head in Hc. by apply lstrip_head in Hc.
Qed.

(** [strip] removes a run of whitespace at each end and nothing else. *)
Lemma strip_decompose s :
  ∃ l r, s = l ++ strip s ++ r
         ∧ forallb isspace l = true ∧ forallb isspace r = true.
Proof.
  destruct (lstrip_suffix s) as (l & Hs & Hl).
  destruct (lstrip_suffix (rev (lstrip s))) as (r & Hr & Hrs).
  exists l, (rev r). split_and!; [|done|].
  - rewrite Hs at 1. f_equal. unfold strip, rstrip.
    rewrite <- rev_app_distr, <- Hr. by rewrite rev_involutive.
  - rewrite forallb_forall in *. intros x Hx. apply Hrs. by apply in_rev.
Qed.

Lemma prefix_chain_snoc l s :
  prefix_chain l → Forall (λ t, t `prefix_of` s) l → prefix_chain (l ++ [s]).
Proof.
  induction l as [|t l IH]; simpl; [done|].
  intros [Ht Hl] Hs. inversion_clear Hs as [|?? Hts Hls]. split; [|auto].
  apply Forall_app. split; [done|]. by constructor.
Qed.

Lemma prefix_chain_app l1 l2 :
  prefix_chain l1 → prefix_chain l2 →
  (∀ s t, s ∈ l1 → t ∈ l2 → s `prefix_of` t) →
  prefix_chain (l1 ++ l2).
Proof.
  induction l1 as [|s l1 IH]; simpl; [done|].
  intros [Hs Hl1] Hl2 Hcross. split.
  - apply Forall_app. split; [done|].
    apply Forall_forall. intros t Ht. apply Hcross; [left|done].
  - apply IH; [done..|]. intros ????. apply Hcross; [by right|done].
Qed.

(** ** Facts about the pipeline *)

Section PipelineFacts.

Context {World : Type} `{Libraries}.

Local Abbreviation cache_path pdf := (FileCache_path pdf_cache (get_pdf_hash pdf)).
Local Abbreviation state := (@state World).
Local Abbreviation ClaudeClient := (@ClaudeClient World).
Local Abbreviation M := (@M World).

Implicit Types (c : ClaudeClient) (st : state) (fc : pystr) (e : exn).

(** The monad, unfolded. *)
Lemma bind_eq {A B} (m : M A) (f : A → M B) st :
  (m ≫= f) st =
    match m st with
    | (Ok a, st') => f a st'
    | (Raise e, st') => (Raise e, st')
    end.
Proof. reflexivity. Qed.

Lemma bind_lift {A B} (r : result A) (f : A → M B) st :
  (lift r ≫= f) st =
    match r with
    | Ok a => f a st
    | Raise e => (Raise e, st)
    end.
Proof. by destruct r. Qed.

(** The body of the image loop is [prepare], then the analysis step. *)
Lemma xobject_body_prepare c page_num x fc st :
  xobject_body c page_num x fc st =
    match prepare x with
    | Raise e => (Raise e, st)
    | Ok None => (Ok fc, st)
    | Ok (Some (img_byte_arr, mime_type)) =>
        analysis_step c page_num img_byte_arr mime_type fc st
    end.
Proof.
  unfold xobject_body, prepare.
  rewrite bind_lift.
  destruct (getitem _ "/Subtype") as [subtype|]; simpl; [|done].
  destruct (pdf_eq_str subtype _); simpl; [|done].
  rewrite bind_lift.
  destruct (getitem _ "/Width") as [width|]; simpl; [|done].
  rewrite bind_lift.
  destruct (getitem _ "/Height") as [height|]; simpl; [|done].
  rewrite bind_lift.
  destruct (get_data x) as [data|]; simpl; [|done].
  rewrite bind_lift.
  destruct (getitem _ "/Filter") as [filter|]; simpl; [|done].
  rewrite bind_lift.
  destruct (decode filter (width, height) data) as [[[[img format] mime]|]|];
    simpl; [|done..].
  destruct (img_size img) as [w h]; simpl.
  rewrite bind_lift.
  destruct (is_relevant_image w h) as [[]|]; simpl; [|done..].
  rewrite bind_lift.
  destruct (img_save img _); simpl; done.
Qed.

(** The analysis step always returns: one call is logged, with the
    document so far as its context, and one section is appended. *)
Lemma analysis_step_eq c page_num img_byte_arr mime_type fc st :
  analysis_step c page_num img_byte_arr mime_type fc st =
    let r := analyze_image c img_byte_arr mime_type fc (world st) in
    (Ok (fc ++ image_section page_num (analysis_text r.1)),
     {| world := r.2;
        disk := disk st;
        calls := calls st ++ [{| call_image_data := img_byte_arr;
                                 call_media_type := mime_type;
                                 call_context := fc |}] |}).
Proof.
  unfold analysis_step, try_except, call_analyze_image. rewrite bind_eq.
  destruct (analyze_image c _ _ _ _) as [[a|e] w]; reflexivity.
Qed.

Lemma for_each_cons {A B} (body : A → B → M B) x xs acc st :
  for_each body (x :: xs) acc st =
    match body x acc st with
    | (Ok acc', st') => for_each body xs acc' st'
    | (Raise e, st') => (Raise e, st')
    end.
Proof. reflexivity. Qed.

Lemma for_each_app {A B} (body : A → B → M B) xs ys acc st :
  for_each body (xs ++ ys) acc st =
    match for_each body xs acc st with
    | (Ok acc', st') => for_each body ys acc' st'
    | (Raise e, st') => (Raise e, st')
    end.
Proof.
  revert acc st. induction xs as [|x xs IH]; intros acc st; simpl; [done|].
  rewrite !bind_eq. destruct (body x acc st) as [[acc'|e] st']; [apply IH|done].
Qed.

(** One run of the image loop of page [page_num]. *)
Lemma image_loop_run c page_num (xs : list (pystr * XObject)) fc st r st' :
  for_each (λ obj, xobject_body c page_num obj.2) xs fc st = (r, st') →
  ∃ (analyses : list pystr) (new : list call),
    calls st' = calls st ++ new
    ∧ disk st' = disk st
    ∧ map call_context new = contexts_of page_num fc analyses
    ∧ match r with
      | Ok fc' =>
          fc' = fc ++ concat (map (image_section page_num) analyses)
          ∧ length analyses = length (List.filter (λ obj, qualifies obj.2) xs)
      | Raise _ => True
      end.
Proof.
  revert fc st. induction xs as [|[name x] xs IH]; intros fc st; simpl.
  - intros [= <- <-]. exists [], []. simpl. by rewrite !app_nil_r.
  - rewrite bind_eq, xobject_body_prepare. unfold qualifies. simpl.
    destruct (prepare x) as [[[b mime]|]|e].
    + rewrite analysis_step_eq. cbv zeta. intros Hrun.
      apply IH in Hrun as (analyses & new & Hcalls & Hdisk & Hctx & Hr).
      simpl in Hcalls, Hdisk.
      eexists (_ :: analyses), (_ :: new). split_and!.
      * rewrite Hcalls, <- app_assoc. reflexivity.
      * done.
      * simpl. by rewrite Hctx.
      * destruct r as [fc'|]; [|done]. destruct Hr as [-> Hlen].
        simpl. rewrite <- app_assoc. split; [done|]. by rewrite Hlen.
    + intros Hrun. by apply IH in Hrun.
    + intros [= <- <-]. exists [], []. simpl. by rewrite app_nil_r.
Qed.

(** One run of the body of the page loop. *)
Lemma page_body_run c page_num page fc st r st' :
  page_body c (page_num, page) fc st = (r, st') →
  (∃ e, extract_text page = Raise e ∧ r = Raise e ∧ st' = st)
  ∨ ∃ (page_text : pystr) (analyses : list pystr) (new : list call),
      extract_text page = Ok page_text
      ∧ calls st' = calls st ++ new
      ∧ disk st' = disk st
      ∧ map call_context new
        = contexts_of page_num (fc ++ page_section page_num page_text) analyses
      ∧ match r with
        | Ok fc' =>
            fc' = fc ++ compose_page page_num page_text analyses
            ∧ length analyses = count_qualifying page
        | Raise _ => True
        end.
Proof.
  unfold page_body, count_qualifying. rewrite bind_lift.
  destruct (extract_text page) as [page_text|e].
  2:{ intros [= <- <-]. left. by exists e. }
  intros Hrun. right. exists page_text.
  destruct (page_xobjects page) as [xs|].
  - apply image_loop_run in Hrun as (analyses & new & Hcalls & Hdisk & Hctx & Hr).
    exists analyses, new. split_and!; [done..|].
    destruct r as [fc'|]; [|done]. destruct Hr as [-> Hlen].
    unfold compose_page. by rewrite <- app_assoc.
  - injection Hrun as <- <-. exists [], []. simpl.
    unfold compose_page. simpl. by rewrite !app_nil_r.
Qed.

(** One run of the page loop, from page number [page_num] on. *)
Lemma page_loop_run c page_num (pages : list Page) fc st r st' :
  for_each (page_body c) (enumerate page_num pages) fc st = (r, st') →
  ∃ (done : list (pystr * list pystr)) (new : list call),
    calls st' = calls st ++ new
    ∧ disk st' = disk st
    ∧ map call_context new = doc_contexts page_num fc done
    ∧ match r with
      | Ok fc' =>
          fc' = fc ++ compose_pages page_num done
          ∧ Forall2 (λ page d,
              extract_text page = Ok d.1
              ∧ length d.2 = count_qualifying page)
              pages done
      | Raise _ => True
      end.
Proof.
  revert page_num fc st. induction pages as [|page pages IH]; intros k fc st.
  - intros [= <- <-]. exists [], []. simpl. rewrite !app_nil_r. by split_and!.
  - cbn [enumerate]. rewrite for_each_cons.
    destruct (page_body c (k, page) fc st) as [[fc1|e] st1] eqn:Hpage.
    + apply page_body_run in Hpage
        as [(e & _ & [=] & _)|(t & analyses & new1 & Ht & Hc1 & Hd1 & Hx1 & -> & Hlen)].
      intros Hrun.
      apply IH in Hrun as (done & new2 & Hc2 & Hd2 & Hx2 & Hr).
      exists ((t, analyses) :: done), (new1 ++ new2). split_and!.
      * by rewrite Hc2, Hc1, app_assoc.
      * congruence.
      * simpl. by rewrite map_app, Hx1, Hx2.
      * destruct r as [fc'|]; [|done]. destruct Hr as [-> Hall].
        simpl. rewrite <- app_assoc. split; [done|]. by constructor.
    + intros [= <- <-].
      apply page_body_run in Hpage
        as [(e' & _ & _ & ->)|(t & analyses & new1 & Ht & Hc1 & Hd1 & Hx1 & _)].
      * exists [], []. simpl. by rewrite app_nil_r.
      * exists [(t, analyses)], new1. simpl. by rewrite app_nil_r.
Qed.

(** The contexts of a run grow along the document. *)
Lemma contexts_of_chain page_num fc analyses :
  prefix_chain (contexts_of page_num fc analyses)
  ∧ Forall (λ t, fc `prefix_of` t) (contexts_of page_num fc analyses)
  ∧ Forall (λ t, t `prefix_of` fc ++ concat (map (image_section page_num) analyses))
      (contexts_of page_num fc analyses).
Proof.
  revert fc. induction analyses as [|a analyses IH]; intros fc; simpl; [done|].
  destruct (IH (fc ++ image_section page_num a)) as (Hchain & Hlow & Hhigh).
  assert (fc `prefix_of` fc ++ image_section page_num a) as Hstep
    by apply prefix_app_r, reflexivity.
  split; [|split].
  - split; [|done]. eapply Forall_impl; [exact Hlow|].
    intros t Ht. by etrans.
  - constructor; [done|]. eapply Forall_impl; [exact Hlow|].
    intros t Ht. by etrans.
  - constructor.
    + by apply prefix_app_r.
    + by rewrite <- app_assoc in Hhigh.
Qed.

Lemma doc_contexts_chain page_num fc done :
  prefix_chain (doc_contexts page_num fc done)
  ∧ Forall (λ t, fc `prefix_of` t) (doc_contexts page_num fc done)
  ∧ Forall (λ t, t `prefix_of` fc ++ compose_pages page_num done)
      (doc_contexts page_num fc done).
Proof.
  revert page_num fc. induction done as [|[t analyses] done IH]; intros k fc;
    cbn [doc_contexts compose_pages prefix_chain]; [done|].
  destruct (contexts_of_chain k (fc ++ page_section k t) analyses)
    as (Hchain1 & Hlow1 & Hhigh1).
  destruct (IH (k + 1) (fc ++ compose_page k t analyses)) as (Hchain2 & Hlow2 & Hhigh2).
  assert (fc `prefix_of` fc ++ page_section k t) as Hstep
    by apply prefix_app_r, reflexivity.
  assert (fc ++ page_section k t `prefix_of` fc ++ compose_page k t analyses) as Hstep2.
  { unfold compose_page. rewrite app_assoc. by apply prefix_app_r. }
  split; [|split].
  - apply prefix_chain_app; [done..|].
    intros s u Hs Hu.
    rewrite Forall_forall in Hhigh1, Hlow2.
    specialize (Hhigh1 s Hs). specialize (Hlow2 u Hu).
    unfold compose_page in Hlow2. rewrite app_assoc in Hlow2. by etrans.
  - apply Forall_app. split.
    + eapply Forall_impl; [exact Hlow1|]. intros u Hu. by etrans.
    + eapply Forall_impl; [exact Hlow2|]. intros u Hu. etrans; [|done]. by etrans.
  - apply Forall_app. split.
    + eapply Forall_impl; [exact Hhigh1|]. intros u Hu. cbv beta in *.
      rewrite app_assoc. apply prefix_app_r.
      unfold compose_page. by rewrite app_assoc.
    + eapply Forall_impl; [exact Hhigh2|]. intros u Hu. cbv beta in *.
      by rewrite app_assoc.
Qed.

(** The cache lookup leaves the state alone. *)
Lemma FileCache_get_state self key st : (FileCache_get self key st).2 = st.
Proof.
  unfold FileCache_get.
  by destruct (files (disk st) !! FileCache_path self key) as [[]|].
Qed.

(** [parse_pdf], one exit at a time. *)
Lemma parse_pdf_eq c pdf st :
  parse_pdf c pdf st =
    match (FileCache_get pdf_cache (get_pdf_hash pdf) st).1 with
    | Raise e => (Raise e, st)
    | Ok cached_result =>
        if truthy cached_result then (PDFParseResponse_new cached_result, st)
        else
          match PdfReader pdf with
          | Raise e => (Raise e, st)
          | Ok pages =>
              match for_each (page_body c) (enumerate 1 pages) [] st with
              | (Raise e, st1) => (Raise e, st1)
              | (Ok fc, st1) =>
                  match write_fault (disk st1) (cache_path pdf) with
                  | Some e => (Raise e, st1)
                  | None =>
                      (Ok {| content := strip fc |},
                       stored st1 (get_pdf_hash pdf)
                         (PDFParseResponse_dict {| content := strip fc |}))
                  end
              end
          end
    end.
Proof.
  unfold parse_pdf. rewrite bind_eq.
  pose proof (FileCache_get_state pdf_cache (get_pdf_hash pdf) st) as Hst.
  destruct (FileCache_get pdf_cache (get_pdf_hash pdf) st) as [[v|e] st0];
    simpl in Hst; subst st0; simpl; [|done].
  destruct (truthy v); [done|].
  rewrite bind_lift. destruct (PdfReader pdf) as [pages|e]; [|done].
  rewrite bind_eq.
  destruct (for_each (page_body c) (enumerate 1 pages) [] st) as [[fc|e] st1]; [|done].
  rewrite bind_eq. unfold FileCache_put.
  by destruct (write_fault (disk st1) _).
Qed.

Lemma cache_miss_lookup pdf st :
  cache_miss pdf st = true →
  ∃ v, (FileCache_get pdf_cache (get_pdf_hash pdf) st).1 = Ok v ∧ truthy v = false.
Proof.
  unfold cache_miss.
  destruct (FileCache_get pdf_cache (get_pdf_hash pdf) st).1 as [v|]; [|done].
  intros Hv. exists v. split; [done|]. by destruct (truthy v).
Qed.

(** The record stored by a run is found again, and is the response. *)
Lemma stored_lookup st key r :
  (FileCache_get pdf_cache key (stored st key (PDFParseResponse_dict r))).1
  = Ok (PDFParseResponse_dict r).
Proof.
  unfold FileCache_get, stored, write_file. simpl.
  by rewrite lookup_insert_eq.
Qed.

Lemma PDFParseResponse_new_dict r :
  PDFParseResponse_new (PDFParseResponse_dict r) = Ok r.
Proof. by destruct r. Qed.

(** Failures before the analysis step are failures of [prepare]. *)
Lemma decoding_raises_prepare x e : decoding_raises x e → prepare x = Raise e.
Proof.
  intros (subtype & width & height & data & filter
          & Hs & Himg & Hw & Hh & Hd & Hf & Hdec).
  unfold prepare. rewrite Hs. simpl. rewrite Himg. simpl.
  rewrite Hw. simpl. rewrite Hh. simpl. rewrite Hd. simpl.
  rewrite Hf. simpl. by rewrite Hdec.
Qed.

Lemma saving_raises_prepare x e : saving_raises x e → prepare x = Raise e.
Proof.
  intros (subtype & width & height & data & filter & img & format & mime
          & Hs & Himg & Hw & Hh & Hd & Hf & Hdec & Hrel & Hsave).
  unfold prepare. rewrite Hs. simpl. rewrite Himg. simpl.
  rewrite Hw. simpl. rewrite Hh. simpl. rewrite Hd. simpl.
  rewrite Hf. simpl. rewrite Hdec. simpl. rewrite Hrel. simpl. by rewrite Hsave.
Qed.

Lemma unrecognized_image_prepare x : unrecognized_image x → prepare x = Ok None.
Proof.
  intros (subtype & width & height & data & filter
          & Hs & Himg & Hw & Hh & Hd & Hf & H1 & H2 & H3).
  unfold prepare. rewrite Hs. simpl. rewrite Himg. simpl.
  rewrite Hw. simpl. rewrite Hh. simpl. rewrite Hd. simpl.
  rewrite Hf. simpl. unfold decode. by rewrite H1, H2, H3.
Qed.

(** The loops do not tell a raising analyzer from one that answers with
    the placeholder. *)
Lemma xobject_body_recovering c page_num x fc st :
  xobject_body (recovering c) page_num x fc st = xobject_body c page_num x fc st.
Proof.
  rewrite !xobject_body_prepare.
  destruct (prepare x) as [[[b mime]|]|]; [|done..].
  by rewrite !analysis_step_eq.
Qed.

Lemma for_each_ext {A B} (f g : A → B → M B) xs acc st :
  (∀ x acc st, f x acc st = g x acc st) →
  for_each f xs acc st = for_each g xs acc st.
Proof.
  intros Hfg. revert acc st. induction xs as [|x xs IH]; intros acc st; [done|].
  rewrite !for_each_cons, Hfg.
  destruct (g x acc st) as [[acc'|] st']; [apply IH|done].
Qed.

Lemma page_body_recovering c entry fc st :
  page_body (recovering c) entry fc st = page_body c entry fc st.
Proof.
  destruct entry as [page_num page]. unfold page_body.
  rewrite !bind_lift. destruct (extract_text page) as [t|]; [|done].
  destruct (page_xobjects page); [|done].
  apply for_each_ext. intros. apply xobject_body_recovering.
Qed.

(** The client of the source: a failure of the API call is a failure of
    [analyze_image], and an empty [message.content] is answered with the
    fallback text. *)
Lemma AnthropicClient_raises b64encode messages_create
    image_data media_type context (w w' : World) e :
  messages_create (analysis_prompt context) media_type (b64encode image_data) w
  = (Raise e, w') →
  analyze_image (AnthropicClient b64encode messages_create)
    image_data media_type context w = (Raise e, w').
Proof. intros Hcall. simpl. by rewrite Hcall. Qed.

Lemma AnthropicClient_no_content b64encode messages_create
    image_data media_type context (w w' : World) :
  messages_create (analysis_prompt context) media_type (b64encode image_data) w
  = (Ok [], w') →
  analyze_image (AnthropicClient b64encode messages_create)
    image_data media_type context w = (Ok (lit "No analysis available"), w').
Proof. intros Hcall. simpl. by rewrite Hcall. Qed.

Lemma enumerate_app {A} (start : Z) (xs ys : list A) :
  enumerate start (xs ++ ys)
  = enumerate start xs ++ enumerate (start + Z.of_nat (length xs)) ys.
Proof.
  revert start. induction xs as [|x xs IH]; intros start; simpl.
  - by rewrite Z.add_0_r.
  - rewrite IH. do 3 f_equal. lia.
Qed.

End PipelineFacts.

(** ** The analyses of a run, call by call *)

Section TraceFacts.

Context {World : Type} `{Libraries}.

Local Abbreviation state := (@state World).
Local Abbreviation ClaudeClient := (@ClaudeClient World).

Implicit Types (c : ClaudeClient) (st : state) (fc : pystr) (e : exn).








End TraceFacts.

(** ** The properties of the extraction pipeline *)

Section PipelineClaims.

Context {World : Type} `{Libraries}.

Local Abbreviation cache_path pdf := (FileCache_path pdf_cache (get_pdf_hash pdf)).
Local Abbreviation state := (@state World).
Local Abbreviation ClaudeClient := (@ClaudeClient World).

Implicit Types (c : ClaudeClient) (st : state) (fc : pystr) (e : exn).

(** C1. An image reaches the analysis step and the analyzer raises [e]:
    the body of the image loop returns, and the document so far gains the
    section whose text is the image header of the page followed by
    ["Error analyzing image: "] and [str(e)]; the loop goes on with the
    remaining images of the page from there.  In a run of [parse_pdf]
    that has come to this image, on page [page_num] after the pages
    [before] and the images [xs_before], the run goes on from that
    document with the remaining images and pages and stores what it
    composed; and the document it returns is, up to the white space
    trimmed at its ends, the text of the earlier pages, the header and
    text of this page, the sections of its earlier images, the
    placeholder section, and what came after.  The whole of [parse_pdf]
    runs as it would with an analyzer that had answered with the
    placeholder instead of raising. *)
Theorem analyzer_failure_is_contained
    c page_num xobj img_byte_arr mime_type fc st e w :
  prepare xobj = Ok (Some (img_byte_arr, mime_type)) →
  analyze_image c img_byte_arr mime_type fc (world st) = (Raise e, w) →
  let fc' :=
    fc ++ nl ++ nl ++ lit "--- Image Analysis (Page " ++ str_of_int page_num
    ++ lit ") ---" ++ nl ++ nl
    ++ lit "Error analyzing image: " ++ str_of_exn e ++ nl in
  let st' :=
    {| world := w;
       disk := disk st;
       calls := calls st ++ [{| call_image_data := img_byte_arr;
                                call_media_type := mime_type;
                                call_context := fc |}] |} in
  xobject_body c page_num xobj fc st = (Ok fc', st')
  ∧ (∀ (name : pystr) (rest : list (pystr * XObject)),
       for_each (λ obj, xobject_body c page_num obj.2) ((name, xobj) :: rest) fc st
       = for_each (λ obj, xobject_body c page_num obj.2) rest fc' st')
  ∧ (∀ pdf st0 (before after : list Page) page page_text
       (xs_before xs_after : list (pystr * XObject)) (name : pystr) fc1 st1,
       let page_doc :=
         fc1 ++ nl ++ nl ++ lit "--- Page " ++ str_of_int page_num ++ lit " ---"
         ++ nl ++ nl ++ page_text ++ nl in
       page_num = 1 + Z.of_nat (length before) →
       cache_miss pdf st0 = true →
       PdfReader pdf = Ok (before ++ page :: after) →
       for_each (page_body c) (enumerate 1 before) [] st0 = (Ok fc1, st1) →
       extract_text page = Ok page_text →
       page_xobjects page = Some (xs_before ++ (name, xobj) :: xs_after) →
       for_each (λ obj, xobject_body c page_num obj.2) xs_before page_doc st1
       = (Ok fc, st) →
       parse_pdf c pdf st0
       = (fc4 ← for_each (λ obj, xobject_body c page_num obj.2) xs_after fc';
          fc5 ← for_each (page_body c) (enumerate (page_num + 1) after) fc4;
          let result := {| content := strip fc5 |} in
          _ ← FileCache_put pdf_cache (get_pdf_hash pdf) (PDFParseResponse_dict result);
          mret result) st'
       ∧ ∀ r st_end,
           parse_pdf c pdf st0 = (Ok r, st_end) →
           ∃ earlier rest ws_l ws_r,
             fc = page_doc ++ earlier
             ∧ ws_l ++ content r ++ ws_r = fc' ++ rest
             ∧ forallb isspace ws_l = true
             ∧ forallb isspace ws_r = true
             ∧ trimmed (content r))
  ∧ (∀ pdf st0, parse_pdf c pdf st0 = parse_pdf (recovering c) pdf st0).
Proof.
  intros Hprep Hcall fc' st'.
  assert (xobject_body c page_num xobj fc st = (Ok fc', st')) as Hbody.
  { rewrite xobject_body_prepare, Hprep, analysis_step_eq. cbv zeta.
    by rewrite Hcall. }
  split_and!.
  - done.
  - intros name rest. by rewrite for_each_cons; simpl; rewrite Hbody.
  - intros pdf st0 before after page page_text xs_before xs_after name fc1 st1
      page_doc Hnum (v & Hv & Hfalse)%cache_miss_lookup Hpdf Hbefore Htext Hxs
      Hxs_before.
    assert (parse_pdf c pdf st0
            = (fc4 ← for_each (λ obj, xobject_body c page_num obj.2) xs_after fc';
               fc5 ← for_each (page_body c) (enumerate (page_num + 1) after) fc4;
               let result := {| content := strip fc5 |} in
               _ ← FileCache_put pdf_cache (get_pdf_hash pdf)
                     (PDFParseResponse_dict result);
               mret result) st') as Hrun.
    { rewrite parse_pdf_eq, Hv, Hfalse, Hpdf, enumerate_app, for_each_app, Hbefore.
      cbn [enumerate]. rewrite for_each_cons. unfold page_body at 1.
      rewrite bind_lift, Htext, Hxs, <- Hnum.
      change (fc1 ++ page_section page_num page_text) with page_doc.
      rewrite for_each_app, Hxs_before, for_each_cons. cbn [snd].
      rewrite Hbody, !bind_eq.
      destruct (for_each (λ obj : pystr * XObject, xobject_body c page_num obj.2)
                  xs_after fc' st') as [[fc4|] st4]; [|done].
      rewrite bind_eq.
      destruct (for_each (page_body c) _ fc4 st4) as [[fc5|] st5]; [|done].
      cbv zeta. rewrite bind_eq. unfold FileCache_put.
      by destruct (write_fault (disk st5) _). }
    split; [done|]. intros r st_end. rewrite Hrun, bind_eq.
    destruct (for_each (λ obj : pystr * XObject, xobject_body c page_num obj.2)
                xs_after fc' st') as [[fc4|] st4] eqn:Hafter; [|done].
    rewrite bind_eq.
    destruct (for_each (page_body c) _ fc4 st4) as [[fc5|] st5] eqn:Hpages; [|done].
    cbv zeta. rewrite bind_eq.
    destruct (FileCache_put _ _ _ st5) as [[[]|] st6]; [|done].
    intros [= <- <-]. cbn [content].
    apply image_loop_run in Hxs_before as (earlier & _ & _ & _ & _ & -> & _).
    apply image_loop_run in Hafter as (later & _ & _ & _ & _ & -> & _).
    apply page_loop_run in Hpages as (done & _ & _ & _ & _ & -> & _).
    destruct (strip_decompose
                ((fc' ++ concat (map (image_section page_num) later))
                 ++ compose_pages (page_num + 1) done)) as (ws_l & ws_r & Hsplit & Hl & Hr).
    exists (concat (map (image_section page_num) earlier)),
      (concat (map (image_section page_num) later)
       ++ compose_pages (page_num + 1) done), ws_l, ws_r.
    split_and!; [done| |done|done|apply strip_trimmed].
    by rewrite <- Hsplit, <- app_assoc.
  - intros pdf st0. rewrite !parse_pdf_eq.
    destruct (FileCache_get pdf_cache (get_pdf_hash pdf) st0).1 as [v|]; [|done].
    destruct (truthy v); [done|].
    destruct (PdfReader pdf) as [pages|]; [|done].
    by rewrite (for_each_ext (page_body (recovering c)) (page_body c))
      by apply page_body_recovering.
Qed.

(** C3, as the code has it. A failure of the cache is not contained: an
    unreadable or malformed cache file makes [parse_pdf] raise the read
    error before any page work, and on a miss a cache file that cannot be
    written makes it raise the write error after the document was composed;
    a document is returned only when the cache could be read and
    written. *)
Theorem cache_failure_aborts c pdf st e :
  (files (disk st) !! cache_path pdf = Some (Unreadable e)
   ∨ files (disk st) !! cache_path pdf = Some (Malformed e) →
   parse_pdf c pdf st = (Raise e, st))
  ∧ (cache_miss pdf st = true →
     write_fault (disk st) (cache_path pdf) = Some e →
     (∀ r st', parse_pdf c pdf st ≠ (Ok r, st'))
     ∧ (∀ pages fc st1,
          PdfReader pdf = Ok pages →
          for_each (page_body c) (enumerate 1 pages) [] st = (Ok fc, st1) →
          parse_pdf c pdf st = (Raise e, st1))).
Proof.
  split.
  - intros Hfile. rewrite parse_pdf_eq. unfold FileCache_get.
    by destruct Hfile as [-> | ->].
  - intros (v & Hv & Hfalse)%cache_miss_lookup Hfault.
    rewrite parse_pdf_eq, Hv, Hfalse.
    destruct (PdfReader pdf) as [pages|e0].
    2:{ split; [intros r st' [=]|intros pages fc st1 [=]]. }
    destruct (for_each (page_body c) (enumerate 1 pages) [] st)
      as [[fc|e1] st1] eqn:Hloop.
    2:{ split; [intros r st' [=]|intros pages' fc st1' [= <-]].
        rewrite Hloop. intros [=]. }
    assert (disk st1 = disk st) as Hdisk.
    { by apply page_loop_run in Hloop as (_ & _ & _ & ? & _). }
    rewrite Hdisk, Hfault. split; [intros r st' [=]|].
    intros pages' fc' st1' [= <-]. rewrite Hloop. by intros [= <- <-].
Qed.

(** C4. When the cache holds a stored result for the fingerprint,
    [parse_pdf] returns its [content] and leaves the state as it found it:
    no analyzer call is logged and the model's side of the world is not
    touched.  Hence a second run on the same bytes, whatever the analyzer
    would do, returns the document of the first and changes nothing. *)
Theorem cache_hit_short_circuit c pdf st :
  (∀ kvs d,
     files (disk st) !! cache_path pdf = Some (Json (PyDict kvs)) →
     dict_get kvs (lit "content") = Some (PyStr d) →
     parse_pdf c pdf st = (Ok {| content := d |}, st))
  ∧ (∀ r st1,
       parse_pdf c pdf st = (Ok r, st1) →
       ∀ c2, parse_pdf c2 pdf st1 = (Ok r, st1)).
Proof.
  split.
  - intros kvs d Hfile Hcontent. rewrite parse_pdf_eq. unfold FileCache_get.
    rewrite Hfile. cbn [fst].
    assert (truthy (PyDict kvs) = true) as -> by (by destruct kvs).
    unfold PDFParseResponse_new. by rewrite Hcontent.
  - intros r st1 Hrun c2. rewrite parse_pdf_eq in Hrun.
    destruct (FileCache_get pdf_cache (get_pdf_hash pdf) st).1 as [v|] eqn:Hget;
      [|done].
    destruct (truthy v) eqn:Hv.
    + injection Hrun as Hr <-. by rewrite parse_pdf_eq, Hget, Hv, Hr.
    + destruct (PdfReader pdf) as [pages|]; [|done].
      destruct (for_each (page_body c) (enumerate 1 pages) [] st)
        as [[fc|] st0]; [|done].
      destruct (write_fault (disk st0) _); [done|].
      injection Hrun as <- <-.
      by rewrite parse_pdf_eq, stored_lookup, PDFParseResponse_new_dict.
Qed.


(** C7, as the code has it. An image whose dictionary has the entries the
    loop reads, whose stream data [get_data()] returns, and whose filter is
    none of the three: the body of the loop returns with the document and
    the state unchanged (no call, no section), and the page is processed as
    if the image were not there. *)
Theorem unrecognized_filter_is_skipped c page_num xobj fc st :
  unrecognized_image xobj →
  xobject_body c page_num xobj fc st = (Ok fc, st)
  ∧ (∀ (name : pystr) (before after : list (pystr * XObject)) fc0 st0,
       for_each (λ obj, xobject_body c page_num obj.2)
         (before ++ (name, xobj) :: after) fc0 st0
       = for_each (λ obj, xobject_body c page_num obj.2) (before ++ after) fc0 st0).
Proof.
  intros Hprep%unrecognized_image_prepare. split.
  - by rewrite xobject_body_prepare, Hprep.
  - intros name before after fc0 st0. rewrite !for_each_app.
    destruct (for_each _ before fc0 st0) as [[fc1|] st1]; [|done].
    rewrite for_each_cons. simpl. by rewrite xobject_body_prepare, Hprep.
Qed.

(** C9. The body of the image loop makes at most one analyzer call, with
    the document accumulated so far as its context, and the contexts of the calls of one run of [parse_pdf] are
    exactly the successive states of the document: each is a prefix of all
    the later ones, and, when the run composes a document, of that
    document before trimming. *)
Theorem analysis_context_grows c pdf st r st' :
  parse_pdf c pdf st = (r, st') →
  (∀ page_num xobj fc st0,
     calls (xobject_body c page_num xobj fc st0).2 = calls st0
     ∨ ∃ img_byte_arr mime_type,
         calls (xobject_body c page_num xobj fc st0).2
         = calls st0 ++ [{| call_image_data := img_byte_arr;
                            call_media_type := mime_type;
                            call_context := fc |}])
  ∧ ∃ (done : list (pystr * list pystr)) (new : list call),
      calls st' = calls st ++ new
      ∧ map call_context new = doc_contexts 1 [] done
      ∧ prefix_chain (map call_context new)
      ∧ Forall (λ ctx, ctx `prefix_of` compose_pages 1 done) (map call_context new)
      ∧ (cache_miss pdf st = true →
         ∀ resp, r = Ok resp → content resp = composed_document done).
Proof.
  intros Hrun. split.
  { intros page_num xobj fc st0. rewrite xobject_body_prepare.
    destruct (prepare xobj) as [[[b mime]|]|]; [right|by left..].
    rewrite analysis_step_eq. by exists b, mime. }
  rewrite parse_pdf_eq in Hrun.
  assert (∀ P : Prop, P → cache_miss pdf st = true → P) as Hweaken by auto.
  unfold cache_miss.
  destruct (FileCache_get pdf_cache (get_pdf_hash pdf) st).1 as [v|].
  2:{ injection Hrun as <- <-. exists [], []. simpl.
      rewrite app_nil_r. by split_and!. }
  destruct (truthy v).
  { injection Hrun as <- <-. exists [], []. simpl.
    rewrite app_nil_r. by split_and!. }
  destruct (PdfReader pdf) as [pages|].
  2:{ injection Hrun as <- <-. exists [], []. simpl.
      rewrite app_nil_r. by split_and!. }
  destruct (for_each (page_body c) (enumerate 1 pages) [] st)
    as [[fc|e1] st1] eqn:Hloop.
  - apply page_loop_run in Hloop as (done & new & Hcalls & _ & Hctx & -> & _).
    destruct (doc_contexts_chain 1 [] done) as (Hchain & _ & Hhigh).
    exists done, new. rewrite Hctx.
    assert (calls st' = calls st ++ new) as Hlog.
    { destruct (write_fault (disk st1) _); by injection Hrun as <- <-. }
    split_and!; [done..|].
    intros _ resp ->.
    destruct (write_fault (disk st1) _); [discriminate Hrun|].
    by injection Hrun as <- <-.
  - injection Hrun as <- <-.
    apply page_loop_run in Hloop as (done & new & Hcalls & _ & Hctx & _).
    destruct (doc_contexts_chain 1 [] done) as (Hchain & _ & Hhigh).
    exists done, new. rewrite Hctx. by split_and!.
Qed.

(** C10. Only the analyzer call sits in the [try]: when decoding a
    recognized image, or re-encoding it, raises [e], the exception leaves
    the body of the image loop, the page loop and [parse_pdf]; no document
    is returned and nothing is stored in the cache, whatever text the
    earlier pages and images had contributed. *)
Theorem decode_or_save_failure_aborts
    c pdf st (before after : list Page) page page_text
    (xs_before xs_after : list (pystr * XObject)) (name : pystr) xobj
    fc1 st1 fc2 st2 e :
  let page_num := 1 + Z.of_nat (length before) in
  cache_miss pdf st = true →
  PdfReader pdf = Ok (before ++ page :: after) →
  for_each (page_body c) (enumerate 1 before) [] st = (Ok fc1, st1) →
  extract_text page = Ok page_text →
  page_xobjects page = Some (xs_before ++ (name, xobj) :: xs_after) →
  for_each (λ obj, xobject_body c page_num obj.2) xs_before
    (fc1 ++ page_section page_num page_text) st1 = (Ok fc2, st2) →
  decoding_raises xobj e ∨ saving_raises xobj e →
  xobject_body c page_num xobj fc2 st2 = (Raise e, st2)
  ∧ parse_pdf c pdf st = (Raise e, st2)
  ∧ disk st2 = disk st.
Proof.
  intros page_num (v & Hv & Hfalse)%cache_miss_lookup Hpages Hbefore Htext Hxs
    Hxs_before Hfail.
  assert (prepare xobj = Raise e) as Hprep.
  { destruct Hfail; [by apply decoding_raises_prepare|by apply saving_raises_prepare]. }
  assert (xobject_body c page_num xobj fc2 st2 = (Raise e, st2)) as Hbody.
  { by rewrite xobject_body_prepare, Hprep. }
  split_and!; [done| |].
  - rewrite parse_pdf_eq, Hv, Hfalse, Hpages.
    rewrite enumerate_app, for_each_app, Hbefore.
    cbn [enumerate]. rewrite for_each_cons.
    unfold page_body at 1. rewrite bind_lift, Htext, Hxs.
    fold page_num. rewrite for_each_app, Hxs_before, for_each_cons.
    simpl. by rewrite Hbody.
  - apply page_loop_run in Hbefore as (_ & _ & _ & Hd1 & _).
    apply image_loop_run in Hxs_before as (_ & _ & _ & Hd2 & _).
    congruence.
Qed.

End PipelineClaims.

(** ** The properties of the relevance filter *)

(** C2 as stated fails at its first sample: 200 x 200 has exactly 40,000
    pixels, which is not below the threshold, so the image is analyzed. *)
Lemma boundary_200_200_is_analyzed :
  is_relevant_image 200 200 = Ok true ∧ is_relevant_image 200 200 ≠ Ok false.
Proof. split; [vm_compute; reflexivity|]. vm_compute. discriminate. Qed.

(** C2, as the code has it: all four boundary samples are analyzed. *)
Theorem relevance_boundary_samples :
  is_relevant_image 200 200 = Ok true
  ∧ is_relevant_image 201 200 = Ok true
  ∧ is_relevant_image 100 200 = Ok true
  ∧ ∀ w, is_relevant_image w 0 = Ok true.
Proof.
  split_and!; [vm_compute; reflexivity..|].
  apply is_relevant_image_zero_height.
Qed.

(** The nearest image below the threshold is passed over. *)
Example boundary_199_200_is_skipped : is_relevant_image 199 200 = Ok false.
Proof. vm_compute. reflexivity. Qed.



(** C8 as stated fails in its last clause: the filter is not total. *)
Lemma filter_is_not_total : ¬ ∃ r, is_relevant_image (2 ^ 1024) 1 = Ok r.
Proof. intros [r Hr]. revert Hr. vm_compute. discriminate. Qed.

(** C8, as the code has it. With a zero height the division, which would
    raise, is not evaluated: the ratio is taken to be 0 and the answer is
    [True].  The filter returns a boolean on every pair whose width is
    below [2^1023] in absolute value. *)
Theorem zero_height_is_analyzed width :
  Float.truediv width 0 = Raise ZeroDivisionError
  ∧ is_relevant_image width 0 = Ok true
  ∧ ∀ height, Z.abs width < 2 ^ 1023 → ∃ r, is_relevant_image width height = Ok r.
Proof.
  split_and!.
  - done.
  - apply is_relevant_image_zero_height.
  - intros height. apply is_relevant_image_returns.
Qed.

(** ** More about [FileCache] *)

Section CacheFacts.

Context {World : Type}.

Local Abbreviation state := (@state World).
Implicit Types (st : state) (self : FileCache).

Lemma os_path_join_cache b :
  os_path_join (lit ".cache") b
  = if bool_decide (head b = Some 47%N) then b else lit ".cache/" ++ b.
Proof.
  destruct b as [|c b]; [done|]. unfold os_path_join. cbn [head].
  case_bool_decide as Hc.
  - injection Hc as ->. reflexivity.
  - destruct c as [|p]; [done|].
    do 6 (destruct p as [p|p|]; try (done || by destruct Hc)).
Qed.

(** Two keys never share a file of [pdf_cache]. *)
Lemma pdf_cache_path_inj key1 key2 :
  FileCache_path pdf_cache key1 = FileCache_path pdf_cache key2 → key1 = key2.
Proof.
  unfold FileCache_path. cbn [cache_dir pdf_cache].
  rewrite !os_path_join_cache.
  assert (∀ k : pystr, head (lit ".cache/" ++ k ++ lit ".json") ≠ Some 47%N)
    as Hrel by (by intros k).
  do 2 case_bool_decide; intros Heq.
  - by apply app_inv_tail in Heq.
  - rewrite Heq in *. by destruct (Hrel key2).
  - rewrite <- Heq in *. by destruct (Hrel key1).
  - apply app_inv_head in Heq. by apply app_inv_tail in Heq.
Qed.

End CacheFacts.

(** ** More about the relevance filter *)

(** X3. A square image is passed over exactly when its side is between 1
    and 199; the empty 0 x 0 image and every square of side 200 or more
    are analyzed. *)
Theorem square_images side :
  (side ≠ 0 ∧ Z.abs side < 200 → is_relevant_image side side = Ok false)
  ∧ (side = 0 ∨ 200 ≤ Z.abs side →
     Z.abs side < 2 ^ 1023 → is_relevant_image side side = Ok true).
Proof.
  destruct (is_relevant_image_policy side side) as [Hyes Hno]. split.
  - intros [Hnz Hsmall]. apply Hyes. unfold small_near_square, ratio_in_band.
    split; [nia|lia].
  - intros Hbig Hrange.
    destruct (is_relevant_image_returns side side Hrange) as [r Hr].
    destruct Hno as [Ht|Ht]; [|done|congruence].
    unfold small_near_square, ratio_in_band. intros [Hlt [Hnz _]].
    destruct Hbig as [->|Hbig]; [done|nia].
Qed.

(** X4. The band is not symmetric under transposition: an image a little
    wider than tall, with a ratio above 1.2 and at most 1.25, is analyzed,
    and the same image turned by a quarter turn is passed over. *)
Theorem transposition_asymmetry width height :
  0 < height → 6 * height < 5 * width → 4 * width ≤ 5 * height →
  width * height < 40000 →
  is_relevant_image width height = Ok true
  ∧ is_relevant_image height width = Ok false.
Proof.
  intros Hh Hwide Hnear Hsmall.
  assert (Z.abs width < 2 ^ 1023) as Hrange.
  { assert (2 ^ 16 ≤ 2 ^ 1023) by (apply Z.pow_le_mono_r; lia). nia. }
  split.
  - destruct (is_relevant_image_returns width height Hrange) as [r Hr].
    destruct (is_relevant_image_policy width height) as [_ Hno].
    destruct Hno as [Ht|Ht]; [|done|congruence].
    unfold small_near_square, ratio_in_band. lia.
  - apply is_relevant_image_policy. unfold small_near_square, ratio_in_band.
    split; [lia|]. split; [lia|]. left. lia.
Qed.

(** ** More about the pipeline *)

Section PipelineExtras.

Context {World : Type} `{Libraries}.

Local Abbreviation cache_path pdf := (FileCache_path pdf_cache (get_pdf_hash pdf)).
Local Abbreviation state := (@state World).
Local Abbreviation ClaudeClient := (@ClaudeClient World).

Implicit Types (c : ClaudeClient) (st : state) (fc : pystr) (e : exn).




(** A run that starts from a miss either raises with the disk as it was,
    or stores the response it returns. *)
Lemma parse_pdf_miss_run c pdf st r st' :
  cache_miss pdf st = true →
  parse_pdf c pdf st = (r, st') →
  (∃ e, r = Raise e ∧ disk st' = disk st)
  ∨ ∃ fc st1,
      r = Ok {| content := strip fc |}
      ∧ disk st1 = disk st
      ∧ st' = stored st1 (get_pdf_hash pdf)
                (PDFParseResponse_dict {| content := strip fc |}).
Proof.
  intros (v & Hv & Hfalse)%cache_miss_lookup.
  rewrite parse_pdf_eq, Hv, Hfalse.
  destruct (PdfReader pdf) as [pages|e0].
  2:{ intros [= <- <-]. left. by exists e0. }
  destruct (for_each (page_body c) (enumerate 1 pages) [] st)
    as [[fc|e1] st1] eqn:Hloop.
  2:{ intros [= <- <-]. left. exists e1. split; [done|].
      by apply page_loop_run in Hloop as (_ & _ & _ & ? & _). }
  assert (disk st1 = disk st) as Hdisk.
  { by apply page_loop_run in Hloop as (_ & _ & _ & ? & _). }
  destruct (write_fault (disk st1) _) as [e2|].
  - intros [= <- <-]. left. by exists e2.
  - intros [= <- <-]. right. by exists fc, st1.
Qed.

(** X6. What a run of [parse_pdf] does to the disk: it writes at no path
    other than the cache path of the PDF's fingerprint, and it changes
    the disk at all only if it found no usable record, read the PDF and
    went through all its pages and images; a run that finds a record,
    cannot read the cache file or the PDF, or stops at a page or an image,
    leaves the disk as it was. *)
Theorem parse_pdf_disk_footprint c pdf st r st' :
  parse_pdf c pdf st = (r, st') →
  (∀ path, path ≠ cache_path pdf →
     files (disk st') !! path = files (disk st) !! path)
  ∧ (disk st' = disk st
     ∨ ∃ pages fc st1,
         cache_miss pdf st = true
         ∧ PdfReader pdf = Ok pages
         ∧ for_each (page_body c) (enumerate 1 pages) [] st = (Ok fc, st1)).
Proof.
  intros Hrun. rewrite parse_pdf_eq in Hrun. unfold cache_miss.
  destruct (FileCache_get pdf_cache (get_pdf_hash pdf) st).1 as [v|e0].
  2:{ injection Hrun as <- <-. split; [done|by left]. }
  destruct (truthy v).
  { injection Hrun as <- <-. split; [done|by left]. }
  destruct (PdfReader pdf) as [pages|e1].
  2:{ injection Hrun as <- <-. split; [done|by left]. }
  destruct (for_each (page_body c) (enumerate 1 pages) [] st)
    as [[fc|e2] st1] eqn:Hloop.
  2:{ injection Hrun as <- <-.
      apply page_loop_run in Hloop as (_ & _ & _ & -> & _). split; [done|by left]. }
  assert (disk st1 = disk st) as Hdisk.
  { by apply page_loop_run in Hloop as (_ & _ & _ & ? & _). }
  split; [|right; by exists pages, fc, st1].
  destruct (write_fault (disk st1) _); injection Hrun as <- <-.
  - by rewrite Hdisk.
  - intros path Hpath. unfold stored, write_file. cbn [disk files].
    by rewrite Hdisk, lookup_insert_ne.
Qed.

(** A run writes at the cache path of its PDF only. *)
Lemma parse_pdf_other_files c pdf st path :
  path ≠ cache_path pdf →
  files (disk (parse_pdf c pdf st).2) !! path = files (disk st) !! path.
Proof.
  intros Hpath. destruct (parse_pdf c pdf st) as [r st'] eqn:Hrun. cbn [snd].
  destruct (cache_miss pdf st) eqn:Hmiss.
  - apply parse_pdf_miss_run in Hrun; [|done].
    destruct Hrun as [(e & -> & Hdisk)|(fc & st1 & -> & Hdisk & ->)].
    + by rewrite Hdisk.
    + unfold stored, write_file. cbn [disk files]. rewrite Hdisk.
      by rewrite lookup_insert_ne.
  - rewrite parse_pdf_eq in Hrun. unfold cache_miss in Hmiss.
    destruct (FileCache_get pdf_cache (get_pdf_hash pdf) st).1 as [v|e0].
    + destruct (truthy v); [|done]. by injection Hrun as _ <-.
    + by injection Hrun as _ <-.
Qed.

(** X2. Records are kept apart by fingerprint: whatever a run on one PDF
    does, what the cache holds for a PDF with another fingerprint is
    afterwards what it was before (fingerprints being hexadecimal
    digests, which name distinct files of the cache directory). *)
Theorem parsing_leaves_other_records c pdf1 pdf2 st :
  is_hexdigest (get_pdf_hash pdf1) = true →
  is_hexdigest (get_pdf_hash pdf2) = true →
  get_pdf_hash pdf1 ≠ get_pdf_hash pdf2 →
  (FileCache_get pdf_cache (get_pdf_hash pdf2) (parse_pdf c pdf1 st).2).1
  = (FileCache_get pdf_cache (get_pdf_hash pdf2) st).1
  ∧ cache_miss pdf2 (parse_pdf c pdf1 st).2 = cache_miss pdf2 st.
Proof.
  intros _ _ Hne.
  assert ((FileCache_get pdf_cache (get_pdf_hash pdf2) (parse_pdf c pdf1 st).2).1
          = (FileCache_get pdf_cache (get_pdf_hash pdf2) st).1) as Hget.
  { unfold FileCache_get. cbv zeta.
    rewrite parse_pdf_other_files.
    - by destruct (files (disk st) !! _) as [[]|].
    - intros Heq. by apply pdf_cache_path_inj in Heq. }
  split; [done|]. unfold cache_miss. by rewrite Hget.
Qed.

(** The loops read the world and the call log only: over another disk
    they run the same way. *)
Lemma xobject_body_frame c page_num x fc st d :
  xobject_body c page_num x fc (with_disk d st)
  = ((xobject_body c page_num x fc st).1,
     with_disk d (xobject_body c page_num x fc st).2).
Proof.
  rewrite !xobject_body_prepare.
  destruct (prepare x) as [[[b mime]|]|]; [|done..].
  by rewrite !analysis_step_eq.
Qed.

Lemma for_each_frame {A} (body : A → pystr → M (World := World) pystr) d xs acc st :
  (∀ x acc st,
     body x acc (with_disk d st)
     = ((body x acc st).1, with_disk d (body x acc st).2)) →
  for_each body xs acc (with_disk d st)
  = ((for_each body xs acc st).1, with_disk d (for_each body xs acc st).2).
Proof.
  intros Hbody. revert acc st. induction xs as [|x xs IH]; intros acc st; [done|].
  rewrite !for_each_cons, Hbody.
  destruct (body x acc st) as [[acc'|] st1]; cbn [fst snd]; [apply IH|done].
Qed.

Lemma page_body_frame c entry fc st d :
  page_body c entry fc (with_disk d st)
  = ((page_body c entry fc st).1, with_disk d (page_body c entry fc st).2).
Proof.
  destruct entry as [page_num page]. unfold page_body. rewrite !bind_lift.
  destruct (extract_text page); [|done].
  destruct (page_xobjects page); [|done].
  apply for_each_frame. intros. apply xobject_body_frame.
Qed.

(** X7. A cache file that holds a JSON value testing false ([null],
    [false], [0], [0.0], an empty string, list or object) counts as no
    cache file: compared with a run from a state that differs only in
    that the file is absent, the cache path being as writable in the one
    as in the other, the run returns or raises the same, makes the same
    analyzer calls, and when it returns it has overwritten the file and
    left the same files behind. *)
Theorem falsy_record_is_a_miss c pdf st st0 v :
  files (disk st) !! cache_path pdf = Some (Json v) →
  truthy v = false →
  world st0 = world st →
  calls st0 = calls st →
  files (disk st0) = delete (cache_path pdf) (files (disk st)) →
  write_fault (disk st0) (cache_path pdf) = write_fault (disk st) (cache_path pdf) →
  (parse_pdf c pdf st).1 = (parse_pdf c pdf st0).1
  ∧ world (parse_pdf c pdf st).2 = world (parse_pdf c pdf st0).2
  ∧ calls (parse_pdf c pdf st).2 = calls (parse_pdf c pdf st0).2
  ∧ (∀ r, (parse_pdf c pdf st).1 = Ok r →
       files (disk (parse_pdf c pdf st).2) = files (disk (parse_pdf c pdf st0).2)).
Proof.
  intros Hfile Hfalse Hworld Hcalls Hfiles Hwrite.
  destruct st0 as [w0 d0 k0]. cbn [world calls disk] in Hworld, Hcalls, Hfiles, Hwrite.
  subst w0 k0.
  change {| world := world st; disk := d0; calls := calls st |} with (with_disk d0 st).
  rewrite !parse_pdf_eq. unfold FileCache_get. cbv zeta.
  rewrite Hfile. cbn [disk with_disk]. rewrite Hfiles, lookup_delete_eq.
  cbn [fst truthy]. rewrite Hfalse.
  destruct (PdfReader pdf) as [pages|]; [|by split_and!].
  change {| world := world st; disk := d0; calls := calls st |} with (with_disk d0 st).
  rewrite (for_each_frame (page_body c)) by (intros; apply page_body_frame).
  destruct (for_each (page_body c) (enumerate 1 pages) [] st)
    as [[fc|] st1] eqn:Hloop; cbn [fst snd]; [|by split_and!].
  assert (disk st1 = disk st) as Hdisk.
  { by apply page_loop_run in Hloop as (_ & _ & _ & ? & _). }
  change (disk (with_disk d0 st1)) with d0.
  rewrite Hwrite, Hdisk.
  destruct (write_fault (disk st) _); cbn [fst snd]; [by split_and!|].
  split_and!; [done..|]. intros _ _.
  unfold stored, with_disk, write_file. cbn [disk files].
  by rewrite Hdisk, Hfiles, insert_delete_eq.
Qed.

(** X8. A cache file that holds a JSON value testing true but of the
    wrong shape blocks its PDF: every run raises while unpacking it
    ([TypeError] for a value that is no object, a validation error for an
    object without a [content] key), without reading the PDF, calling the
    analyzer or changing anything, so the next run fails the same way. *)
Theorem misshapen_record_blocks_the_pdf c pdf st v :
  files (disk st) !! cache_path pdf = Some (Json v) →
  truthy v = true →
  ((∀ kvs, v ≠ PyDict kvs) →
   parse_pdf c pdf st = (Raise (TypeError_not_a_mapping module_name v), st))
  ∧ (∀ kvs, v = PyDict kvs → dict_get kvs (lit "content") = None →
     parse_pdf c pdf st = (Raise ValidationError_missing, st)).
Proof.
  intros Hfile Htrue. rewrite parse_pdf_eq. unfold FileCache_get. cbv zeta.
  rewrite Hfile. cbn [fst]. rewrite Htrue. split.
  - intros Hshape. destruct v; try done. by destruct (Hshape kvs).
  - intros kvs -> Hkey. unfold PDFParseResponse_new. by rewrite Hkey.
Qed.

(** X9. What reaches the analyzer is determined by the filter: the PNG
    re-encoding of the raw RGB pixels with [image/png] for [/FlateDecode],
    the JPEG re-encoding with [image/jpeg] for [/DCTDecode], the JPEG 2000
    re-encoding with [image/jp2] for [/JPXDecode]; and only an image the
    relevance filter accepts on its decoded size gets there. *)
Theorem payload_of_a_qualifying_image xobj img_byte_arr mime_type :
  prepare xobj = Ok (Some (img_byte_arr, mime_type)) →
  ∃ width height data filter img,
    getitem (xobj_dict xobj) "/Width" = Ok width
    ∧ getitem (xobj_dict xobj) "/Height" = Ok height
    ∧ get_data xobj = Ok data
    ∧ getitem (xobj_dict xobj) "/Filter" = Ok filter
    ∧ is_relevant_image (img_size img).1 (img_size img).2 = Ok true
    ∧ ((pdf_eq_str filter (lit "/FlateDecode") = true
        ∧ Image_frombytes (lit "RGB") (width, height) data = Ok img
        ∧ img_save img (lit "PNG") = Ok img_byte_arr
        ∧ mime_type = lit "image/png")
       ∨ (pdf_eq_str filter (lit "/DCTDecode") = true
          ∧ Image_open data = Ok img
          ∧ img_save img (lit "JPEG") = Ok img_byte_arr
          ∧ mime_type = lit "image/jpeg")
       ∨ (pdf_eq_str filter (lit "/JPXDecode") = true
          ∧ Image_open data = Ok img
          ∧ img_save img (lit "JP2") = Ok img_byte_arr
          ∧ mime_type = lit "image/jp2")).
Proof.
  unfold prepare.
  destruct (getitem _ "/Subtype") as [subtype|]; cbn [mbind result_bind]; [|done].
  destruct (pdf_eq_str subtype _); cbn [negb]; [|done].
  destruct (getitem _ "/Width") as [width|]; cbn [mbind result_bind]; [|done].
  destruct (getitem _ "/Height") as [height|]; cbn [mbind result_bind]; [|done].
  destruct (get_data xobj) as [data|]; cbn [mbind result_bind]; [|done].
  destruct (getitem _ "/Filter") as [filter|]; cbn [mbind result_bind]; [|done].
  unfold decode.
  destruct (pdf_eq_str filter (lit "/FlateDecode")) eqn:Hflate;
    [|destruct (pdf_eq_str filter (lit "/DCTDecode")) eqn:Hdct;
      [|destruct (pdf_eq_str filter (lit "/JPXDecode")) eqn:Hjpx; [|done]]].
  all: match goal with
       | |- context [Image_frombytes ?m ?s ?d] =>
           destruct (Image_frombytes m s d) as [img|] eqn:Himg
       | |- context [Image_open ?d] => destruct (Image_open d) as [img|] eqn:Himg
       end; cbn [mbind result_bind]; [|done].
  all: destruct (is_relevant_image _ _) as [[]|] eqn:Hrel;
    cbn [mbind result_bind negb]; [|done..].
  all: destruct (img_save img _) as [b|] eqn:Hsave; cbn [mbind result_bind]; [|done].
  all: intros [= <- <-]; exists width, height, data, filter, img.
  all: split_and!; [done..|]; auto 10.
Qed.

(** X10. The values of the [/Width] and [/Height] entries of an image's
    dictionary matter for [/FlateDecode] only: two objects that have both
    entries and agree on everything else are treated alike under any
    other filter, the size of the decoded image being what the relevance
    filter sees. *)
Theorem declared_size_matters_for_flate_only x1 x2 filter :
  getitem (xobj_dict x1) "/Subtype" = getitem (xobj_dict x2) "/Subtype" →
  getitem (xobj_dict x1) "/Filter" = Ok filter →
  getitem (xobj_dict x2) "/Filter" = Ok filter →
  get_data x1 = get_data x2 →
  pdf_eq_str filter (lit "/FlateDecode") = false →
  declares_size x1 →
  declares_size x2 →
  prepare x1 = prepare x2.
Proof.
  intros Hsub Hf1 Hf2 Hdata Hflate (w1 & h1 & Hw1 & Hh1) (w2 & h2 & Hw2 & Hh2).
  unfold prepare. rewrite Hsub, Hw1, Hh1, Hw2, Hh2, Hf1, Hf2, Hdata.
  destruct (getitem (xobj_dict x2) "/Subtype") as [subtype|]; [|done].
  cbn [mbind result_bind]. destruct (pdf_eq_str subtype _); [|done].
  cbn [negb]. destruct (get_data x2) as [data|]; [|done].
  cbn [mbind result_bind]. unfold decode. by rewrite Hflate.
Qed.

(** X11. An image that decodes and that the relevance filter rejects is
    passed over before it is re-encoded: the body of the image loop
    returns the document and the state as they were, whatever [img.save]
    would have done, and the image does not count as qualifying. *)
Theorem rejected_image_is_skipped c page_num xobj fc st :
  rejected_image xobj →
  xobject_body c page_num xobj fc st = (Ok fc, st) ∧ qualifies xobj = false.
Proof.
  intros (subtype & width & height & data & filter & img & format & mime
          & Hs & Himg & Hw & Hh & Hd & Hf & Hdec & Hrel).
  assert (prepare xobj = Ok None) as Hprep.
  { unfold prepare. rewrite Hs. simpl. rewrite Himg. simpl.
    rewrite Hw. simpl. rewrite Hh. simpl. rewrite Hd. simpl.
    rewrite Hf. simpl. rewrite Hdec. simpl. by rewrite Hrel. }
  unfold qualifies. by rewrite xobject_body_prepare, Hprep.
Qed.

(** X12. The [/Subtype] test comes first: an object whose subtype is not
    [/Image] is passed over without any other entry being read or its
    stream being decoded, while an object without a [/Subtype] entry
    raises [KeyError] and ends the run of the loop. *)
Theorem subtype_is_tested_first c page_num xobj fc st :
  (∀ subtype,
     getitem (xobj_dict xobj) "/Subtype" = Ok subtype →
     pdf_eq_str subtype (lit "/Image") = false →
     xobject_body c page_num xobj fc st = (Ok fc, st))
  ∧ (xobj_dict xobj !! lit "/Subtype" = None →
     ∀ (name : pystr) (rest : list (pystr * XObject)),
       for_each (λ obj, xobject_body c page_num obj.2) ((name, xobj) :: rest) fc st
       = (Raise (KeyError "/Subtype"), st)).
Proof.
  split.
  - intros subtype Hs Himg. rewrite xobject_body_prepare. unfold prepare.
    rewrite Hs. cbn [mbind result_bind]. by rewrite Himg.
  - intros Hmissing name rest. rewrite for_each_cons. cbn [snd].
    assert (getitem (xobj_dict xobj) "/Subtype" = Raise (KeyError "/Subtype"))
      as Hkey by (unfold getitem; by rewrite Hmissing).
    rewrite xobject_body_prepare. unfold prepare. by rewrite Hkey.
Qed.

Lemma lstrip_app_keep (a b : pystr) (ch : N) :
  head b = Some ch → isspace ch = false → ∃ a', lstrip (a ++ b) = a' ++ b.
Proof.
  intros Hb Hc. induction a as [|x a (a' & IH)].
  - exists []. destruct b as [|y b]; [done|]. injection Hb as ->.
    simpl. by rewrite Hc.
  - simpl. destruct (isspace x).
    + by exists a'.
    + by exists (x :: a).
Qed.

Lemma rstrip_keeps_prefix (s t : pystr) (ch : N) :
  last s = Some ch → isspace ch = false → s `prefix_of` rstrip (s ++ t).
Proof.
  intros Hs Hc. unfold rstrip. rewrite rev_app_distr.
  destruct (lstrip_app_keep (rev t) (rev s) ch) as (a' & ->); [|done|].
  - by rewrite head_rev_last.
  - rewrite rev_app_distr, rev_involutive. by exists (rev a').
Qed.

(** X13. The document of a PDF with at least one page, composed on a
    cache miss, begins with the header of page 1, the blank lines before
    it trimmed away; the document of a PDF without pages is the empty
    string. *)
Theorem document_begins_with_first_header c pdf st r st' pages :
  cache_miss pdf st = true →
  parse_pdf c pdf st = (Ok r, st') →
  PdfReader pdf = Ok pages →
  (pages ≠ [] → lit "--- Page 1 ---" `prefix_of` content r)
  ∧ (pages = [] → content r = []).
Proof.
  intros (v & Hv & Hfalse)%cache_miss_lookup.
  rewrite parse_pdf_eq, Hv, Hfalse. intros Hrun Hpages. rewrite Hpages in Hrun.
  destruct (for_each (page_body c) (enumerate 1 pages) [] st)
    as [[fc|] st1] eqn:Hloop; [|done].
  destruct (write_fault (disk st1) _); [done|]. injection Hrun as <- <-.
  cbn [content]. split.
  - intros Hne.
    apply page_loop_run in Hloop as (done & new & _ & _ & _ & -> & Hall).
    destruct Hall as [|page [page_text analyses] pages' done' _ _]; [done|].
    cbn [compose_pages app]. unfold compose_page, page_section.
    change (str_of_int 1) with (lit "1").
    rewrite <- !app_assoc.
    change (nl ++ nl ++ lit "--- Page " ++ lit "1" ++ lit " ---" ++ ?rest)
      with (nl ++ nl ++ lit "--- Page 1 ---" ++ rest).
    unfold strip.
    change (lstrip (nl ++ nl ++ lit "--- Page 1 ---" ++ ?rest))
      with (lit "--- Page 1 ---" ++ rest).
    by apply (rstrip_keeps_prefix _ _ 45%N).
  - intros ->. by injection Hloop as <- _.
Qed.

(** Pages that can be read are gone through to the end, whatever the
    analyzer does. *)
Lemma readable_pages_run c page_num (pages : list Page) fc st :
  Forall readable_page pages →
  ∃ fc' st', for_each (page_body c) (enumerate page_num pages) fc st = (Ok fc', st').
Proof.
  intros Hpages. revert page_num fc st.
  induction Hpages as [|page pages [[page_text Htext] Hobjs] _ IH];
    intros page_num fc st; [by eexists _, _|].
  cbn [enumerate]. rewrite for_each_cons.
  assert (∃ fc1 st1, page_body c (page_num, page) fc st = (Ok fc1, st1))
    as (fc1 & st1 & ->); [|apply IH].
  unfold page_body. rewrite bind_lift, Htext.
  destruct (page_xobjects page) as [xs|]; [|by eexists _, _].
  specialize (Hobjs xs eq_refl).
  generalize (fc ++ page_section page_num page_text). revert st.
  induction Hobjs as [|[name x] xs [o Ho] _ IHxs]; intros st fc0; [by eexists _, _|].
  rewrite for_each_cons. cbn [snd] in *. rewrite xobject_body_prepare, Ho.
  destruct o as [[b mime]|]; [|apply IHxs].
  rewrite analysis_step_eq. apply IHxs.
Qed.

End PipelineExtras.

(** ** The service boundary, the client and the review script *)

Section ServiceExtras.

Context {World : Type} `{Libraries}.

Local Abbreviation cache_path pdf := (FileCache_path pdf_cache (get_pdf_hash pdf)).
Local Abbreviation state := (@state World).
Local Abbreviation ClaudeClient := (@ClaudeClient World).

Implicit Types (c : ClaudeClient) (st : state) (fc : pystr) (e : exn).

(** X14. The endpoint looks at the declared content type before anything
    else: an upload not declared as exactly [application/pdf] (or with no
    content type) is answered with status 400 without being read, and
    with nothing looked up, analyzed or stored; for a declared PDF the
    status is never 400, and a failure of reading the upload, which
    happens before the [try], is not turned into an HTTP error. *)
Theorem upload_is_checked_before_parsing c file st :
  (content_type file ≠ Some (lit "application/pdf") →
   parse_pdf_endpoint c file st
   = (HTTPException 400 (lit "Invalid document type. Please upload a PDF file."),
      st))
  ∧ (content_type file = Some (lit "application/pdf") →
     (∀ e, read file = Raise e → parse_pdf_endpoint c file st = (Uncaught e, st))
     ∧ (∀ detail st', parse_pdf_endpoint c file st ≠ (HTTPException 400 detail, st'))).
Proof.
  unfold parse_pdf_endpoint. split.
  - intros Htype. by rewrite bool_decide_eq_false_2.
  - intros Htype. rewrite bool_decide_eq_true_2 by done. cbn [negb]. split.
    + by intros e ->.
    + intros detail st'. destruct (read file) as [pdf|]; [|done].
      by destruct (parse_pdf c pdf st) as [[|] ?].
Qed.

(** X15. The analyzer cannot make a request fail: for an upload declared
    as a PDF, not yet cached, whose pages and images can all be read and
    decoded, and whose cache file can be written, the endpoint returns a
    document whatever the analyzer does, raising included. *)
Theorem analyzer_cannot_fail_the_request c file pdf pages st :
  content_type file = Some (lit "application/pdf") →
  read file = Ok pdf →
  cache_miss pdf st = true →
  PdfReader pdf = Ok pages →
  Forall readable_page pages →
  write_fault (disk st) (cache_path pdf) = None →
  ∃ r st', parse_pdf_endpoint c file st = (Returned r, st').
Proof.
  intros Htype Hread (v & Hv & Hfalse)%cache_miss_lookup Hpdf Hpages Hwrite.
  unfold parse_pdf_endpoint. rewrite bool_decide_eq_true_2 by done.
  cbn [negb]. rewrite Hread. cbv zeta.
  rewrite parse_pdf_eq, Hv, Hfalse, Hpdf.
  destruct (readable_pages_run c 1 pages [] st Hpages) as (fc & st1 & Hloop).
  rewrite Hloop.
  assert (disk st1 = disk st) as ->.
  { by apply page_loop_run in Hloop as (_ & _ & _ & ? & _). }
  rewrite Hwrite. by eexists _, _.
Qed.

(** X16. The client is built only with a key that is set and not empty,
    and what it sends for a qualifying image is one request with that
    key: the prompt built around the document so far, the media type and
    the base64 of the re-encoded image.  The section appended carries the
    first text block of the reply, ["No analysis available"] for a reply
    without content, and the placeholder with the error text when the
    request raises. *)
Theorem request_of_a_qualifying_image
    (getenv : string → option pystr) (b64encode : bytes → pystr)
    (Anthropic : pystr → pystr → pystr → pystr → World → result (list pystr) * World)
    client page_num xobj img_byte_arr mime_type fc st :
  ClaudeClient_init getenv b64encode Anthropic = Ok client →
  prepare xobj = Ok (Some (img_byte_arr, mime_type)) →
  ∃ api_key,
    getenv "ANTHROPIC_API_KEY"%string = Some api_key
    ∧ api_key ≠ []
    ∧ let reply :=
        Anthropic api_key (analysis_prompt fc) mime_type (b64encode img_byte_arr)
          (world st) in
      let analysis :=
        match reply.1 with
        | Ok (text :: _) => text
        | Ok [] => lit "No analysis available"
        | Raise e => lit "Error analyzing image: " ++ str_of_exn e
        end in
      xobject_body client page_num xobj fc st
      = (Ok (fc ++ nl ++ nl ++ lit "--- Image Analysis (Page "
             ++ str_of_int page_num ++ lit ") ---" ++ nl ++ nl ++ analysis ++ nl),
         {| world := reply.2;
            disk := disk st;
            calls := calls st ++ [{| call_image_data := img_byte_arr;
                                     call_media_type := mime_type;
                                     call_context := fc |}] |}).
Proof.
  unfold ClaudeClient_init. intros Hinit Hprep.
  destruct (getenv "ANTHROPIC_API_KEY"%string) as [[|k api_key]|]; [done| |done].
  injection Hinit as <-. exists (k :: api_key). split_and!; [done..|].
  cbv zeta. rewrite xobject_body_prepare, Hprep, analysis_step_eq.
  cbn [analyze_image AnthropicClient].
  by destruct (Anthropic _ _ _ _ _) as [[[|text rest]|e] w].
Qed.

End ServiceExtras.

Section ScriptExtras.

Context {World : Type} `{Services World}.

Local Abbreviation script_path := (lit "/Users/adeelqureshi/Downloads/erd.pdf").
Local Abbreviation service_url := (lit "http://localhost:8000/parse-pdf").

(** X17. When the service answers the upload with a JSON object that has
    no string under [content] (an error body with only a [detail], say),
    the script does not report it: it fails with [TypeError] while
    building the review request, before any request to the chat model,
    having printed ["Making request"] and nothing else. *)
Theorem error_body_crashes_the_script
    (st : script_state) f response (w : World) body content :
  open_rb script_path = Ok f →
  requests_post service_url f (services st) = (Ok response, w) →
  json response = Ok body →
  json_get_content body = Ok content →
  (∀ s, content ≠ PyStr s) →
  main st
  = (Raise (TypeError_concatenate content),
     {| services := w; stdout := stdout st ++ [lit "Making request"] |}).
Proof.
  intros Hopen Hpost Hjson Hcontent Hshape. unfold main. cbv zeta.
  rewrite Hopen. cbn [services stdout]. rewrite Hpost, Hjson, Hcontent.
  cbn [services stdout]. unfold review_tdd.
  destruct content; try done. by destruct (Hshape s).
Qed.

(** X18. What a run of the script prints.  A run that ends well has made
    exactly one upload of the file and one chat request, with the
    [content] of the service's answer appended to the fixed review
    instructions, and has printed ["Making request"] and then the first
    choice of the reply (["None"] if that choice has no content); a run
    that fails has printed ["Making request"] at most. *)
Theorem script_output (st : script_state) r st' :
  main st = (r, st') →
  (r = Ok () →
   ∃ f response w body s review choices w',
     open_rb script_path = Ok f
     ∧ requests_post service_url f (services st) = (Ok response, w)
     ∧ json response = Ok body
     ∧ json_get_content body = Ok (PyStr s)
     ∧ chat_completions_create (lit "gpt-4o") (review_request s) w
       = (Ok (review :: choices), w')
     ∧ st' = {| services := w';
                stdout := stdout st ++ [lit "Making request"; printed review] |})
  ∧ (∀ e, r = Raise e →
       st' = st ∧ open_rb script_path = Raise e
       ∨ stdout st' = stdout st ++ [lit "Making request"]).
Proof.
  unfold main. cbv zeta. cbn [services stdout].
  destruct (open_rb script_path) as [f|e0] eqn:Hopen.
  2:{ intros [= <- <-]. split; [done|]. intros e [= <-]. by left. }
  destruct (requests_post service_url f (services st)) as [[response|e1] w]
    eqn:Hpost.
  2:{ intros [= <- <-]. split; [done|]. intros e _. by right. }
  destruct (json response) as [body|e2] eqn:Hjson.
  2:{ intros [= <- <-]. split; [done|]. intros e _. by right. }
  destruct (json_get_content body) as [content|e3] eqn:Hcontent.
  2:{ intros [= <- <-]. split; [done|]. intros e _. by right. }
  unfold review_tdd.
  destruct content as [| | | |s| |];
    try (intros [= <- <-]; split; [done|]; intros e _; by right).
  destruct (chat_completions_create _ _ w) as [[[|review choices]|e4] w']
    eqn:Hchat.
  - intros [= <- <-]. split; [done|]. intros e _. by right.
  - intros [= <- <-]. split; [|done]. intros _.
    exists f, response, w, body, s, review, choices, w'.
    split_and!; [done..|]. by rewrite <- app_assoc.
  - intros [= <- <-]. split; [done|]. intros e _. by right.
Qed.

End ScriptExtras.

(** ** The properties at work on the small deployment *)

Module Examples.

Import Demo.

(** The end-to-end scenario of the specification: two pages, one
    500 x 500 image on the second. *)
Example end_to_end :
  (parse_pdf client two_pages fresh).1
  = Ok {| content :=
            lit "--- Page 1 ---" ++ nl ++ nl ++ lit "Hello" ++ nl
            ++ nl ++ nl ++ lit "--- Page 2 ---" ++ nl ++ nl ++ lit "World" ++ nl
            ++ nl ++ nl ++ lit "--- Image Analysis (Page 2) ---" ++ nl ++ nl
            ++ lit "A diagram." |}.
Proof. vm_compute. reflexivity. Qed.

(** The document with a poisoned image: the placeholder takes the place
    of the first analysis, and everything else is there. *)
Example poisoned_document :
  (parse_pdf client poisoned fresh).1
  = Ok {| content :=
            lit "--- Page 1 ---" ++ nl ++ nl ++ lit "One" ++ nl
            ++ nl ++ nl ++ lit "--- Image Analysis (Page 1) ---" ++ nl ++ nl
            ++ lit "Error analyzing image: overloaded" ++ nl
            ++ nl ++ nl ++ lit "--- Image Analysis (Page 1) ---" ++ nl ++ nl
            ++ lit "A diagram." ++ nl
            ++ nl ++ nl ++ lit "--- Page 2 ---" ++ nl ++ nl ++ lit "Two" |}.
Proof. vm_compute. reflexivity. Qed.

(** C1 at the poisoned image of that document's first page. *)
Lemma analyzer_failure_is_contained_witness :
  xobject_body client 1 poison (page_section 1 (lit "One")) fresh
  = (Ok (page_section 1 (lit "One")
         ++ nl ++ nl ++ lit "--- Image Analysis (Page 1) ---" ++ nl ++ nl
         ++ lit "Error analyzing image: overloaded" ++ nl),
     {| world := 1%nat;
        disk := disk fresh;
        calls := [{| call_image_data := [Byte.x00];
                     call_media_type := lit "image/png";
                     call_context := page_section 1 (lit "One") |}] |})
  ∧ ∃ earlier rest ws_l ws_r,
      page_section 1 (lit "One")
      = (nl ++ nl ++ lit "--- Page 1 ---" ++ nl ++ nl ++ lit "One" ++ nl) ++ earlier
      ∧ ws_l ++ content poisoned_response ++ ws_r
        = (page_section 1 (lit "One")
           ++ nl ++ nl ++ lit "--- Image Analysis (Page 1) ---" ++ nl ++ nl
           ++ lit "Error analyzing image: overloaded" ++ nl) ++ rest
      ∧ forallb isspace ws_l = true
      ∧ forallb isspace ws_r = true
      ∧ trimmed (content poisoned_response).
Proof.
  split.
  - refine (proj1 (analyzer_failure_is_contained client 1 poison [Byte.x00]
                     (lit "image/png") (page_section 1 (lit "One")) fresh
                     overloaded 1%nat _ _)).
    + vm_compute. reflexivity.
    + vm_compute. reflexivity.
  - refine (proj2 (proj1 (proj2 (proj2
              (analyzer_failure_is_contained client 1 poison [Byte.x00]
                 (lit "image/png") (page_section 1 (lit "One")) fresh
                 overloaded 1%nat _ _)))
              poisoned fresh [] [text_page "Two"]
              (image_page "One" [poison; diagram]) (lit "One")
              [] [(lit "/Im", diagram)] (lit "/Im") [] fresh
              _ _ _ _ _ _ _) poisoned_response poisoned_state _).
    + vm_compute. reflexivity.
    + vm_compute. reflexivity.
    + reflexivity.
    + vm_compute. reflexivity.
    + vm_compute. reflexivity.
    + reflexivity.
    + reflexivity.
    + vm_compute. reflexivity.
    + vm_compute. reflexivity.
    + vm_compute. reflexivity.
Defined.

(** C3 as stated fails: with a malformed cache file for the fingerprint
    the read error leaves [parse_pdf], and on a read-only cache directory
    so does the write error. *)
Lemma cache_failure_propagates :
  (parse_pdf client two_pages
     (with_file (cache_file two_pages) (Malformed bad_json))).1
  = Raise bad_json
  ∧ (parse_pdf client two_pages read_only).1 = Raise permission_denied.
Proof. split; vm_compute; reflexivity. Qed.

Lemma cache_failure_aborts_witness :
  parse_pdf client two_pages (with_file (cache_file two_pages) (Malformed bad_json))
  = (Raise bad_json, with_file (cache_file two_pages) (Malformed bad_json))
  ∧ ∀ r st', parse_pdf client two_pages read_only ≠ (Ok r, st').
Proof.
  split.
  - refine (proj1 (cache_failure_aborts client two_pages
                     (with_file (cache_file two_pages) (Malformed bad_json))
                     bad_json) (or_intror _)).
    vm_compute. reflexivity.
  - refine (proj1 (proj2 (cache_failure_aborts client two_pages read_only
                            permission_denied) _ _)).
    + vm_compute. reflexivity.
    + vm_compute. reflexivity.
Defined.

(** C4: a stored result is returned as it is, and the second run on the
    same bytes repeats the first. *)
Lemma cache_hit_short_circuit_witness :
  parse_pdf client two_pages
    (with_file (cache_file two_pages)
       (Json (PyDict [(lit "content", PyStr (lit "cached"))])))
  = (Ok {| content := lit "cached" |},
     with_file (cache_file two_pages)
       (Json (PyDict [(lit "content", PyStr (lit "cached"))])))
  ∧ parse_pdf client two_pages two_pages_state
    = (Ok two_pages_response, two_pages_state).
Proof.
  split.
  - refine (proj1 (cache_hit_short_circuit client two_pages _)
              [(lit "content", PyStr (lit "cached"))] (lit "cached") _ _).
    + vm_compute. reflexivity.
    + vm_compute. reflexivity.
  - refine (proj2 (cache_hit_short_circuit client two_pages fresh)
              two_pages_response two_pages_state _ client).
    vm_compute. reflexivity.
Defined.


(** C7 as stated fails: the filter of this image is none of the three,
    its stream data cannot be read, and the error leaves [parse_pdf]; so
    does the [KeyError] of an image without a [/Filter] entry. *)
Lemma unrecognized_filter_can_abort :
  getitem (xobj_dict jbig2) "/Filter" = Ok (PdfName (lit "/JBIG2Decode"))
  ∧ pdf_eq_str (PdfName (lit "/JBIG2Decode")) (lit "/FlateDecode") = false
  ∧ pdf_eq_str (PdfName (lit "/JBIG2Decode")) (lit "/DCTDecode") = false
  ∧ pdf_eq_str (PdfName (lit "/JBIG2Decode")) (lit "/JPXDecode") = false
  ∧ xobject_body client 2 jbig2 [] fresh = (Raise unsupported_filter, fresh)
  ∧ (parse_pdf client [Byte.x03] fresh).1 = Raise unsupported_filter
  ∧ (parse_pdf client [Byte.x07] fresh).1 = Raise (KeyError "/Filter").
Proof. split_and!; vm_compute; reflexivity. Qed.

Lemma unrecognized_filter_is_skipped_witness :
  xobject_body client 1 fax (page_section 1 (lit "One")) fresh
  = (Ok (page_section 1 (lit "One")), fresh).
Proof.
  refine (proj1 (unrecognized_filter_is_skipped client 1 fax
                   (page_section 1 (lit "One")) fresh _)).
  exists (PdfName (lit "/Image")), (PdfInt 1728), (PdfInt 2200), [Byte.x2a],
    (PdfName (lit "/CCITTFaxDecode")).
  split_and!; vm_compute; reflexivity.
Defined.

(** C9 on the document with two images on its first page. *)
Lemma analysis_context_grows_witness :
  ∃ (done : list (pystr * list pystr)) (new : list call),
    calls poisoned_state = calls fresh ++ new
    ∧ map call_context new = doc_contexts 1 [] done
    ∧ prefix_chain (map call_context new)
    ∧ Forall (λ ctx, ctx `prefix_of` compose_pages 1 done) (map call_context new)
    ∧ (cache_miss poisoned fresh = true →
       ∀ resp, Ok poisoned_response = Ok resp →
               content resp = composed_document done).
Proof.
  refine (proj2 (analysis_context_grows client poisoned fresh
                   (Ok poisoned_response) poisoned_state _)).
  vm_compute. reflexivity.
Defined.

(** C10 on the document whose second image has no data to decode. *)
Lemma decode_or_save_failure_aborts_witness :
  parse_pdf client [Byte.x04] fresh = (Raise not_enough_data, truncated_state)
  ∧ disk truncated_state = disk fresh.
Proof.
  refine (proj2 (decode_or_save_failure_aborts client [Byte.x04] fresh
                   [text_page "One"] [] (image_page "Two" [diagram; truncated])
                   (lit "Two") [(lit "/Im", diagram)] [] (lit "/Im") truncated
                   one_page_content fresh truncated_context truncated_state
                   not_enough_data _ _ _ _ _ _ _)).
  - vm_compute. reflexivity.
  - vm_compute. reflexivity.
  - vm_compute. reflexivity.
  - vm_compute. reflexivity.
  - vm_compute. reflexivity.
  - vm_compute. reflexivity.
  - left.
    exists (PdfName (lit "/Image")), (PdfInt 500), (PdfInt 500), [],
      (PdfName (lit "/FlateDecode")).
    split_and!; vm_compute; reflexivity.
Defined.

(** The same with a JPEG 2000 image that decodes and cannot be
    re-encoded. *)
Example save_failure_aborts :
  saving_raises jpx (Exception "OSError" (lit "encoder jpeg2k not available"))
  ∧ (parse_pdf client [Byte.x05] fresh).1
    = Raise (Exception "OSError" (lit "encoder jpeg2k not available")).
Proof.
  split; [|vm_compute; reflexivity].
  exists (PdfName (lit "/Image")), (PdfInt 640), (PdfInt 480), [Byte.x2a],
    (PdfName (lit "/JPXDecode")), (picture (640, 480) [Byte.x2a]),
    (lit "jp2"), (lit "image/jp2").
  split_and!; vm_compute; reflexivity.
Qed.


Lemma zero_height_is_analyzed_witness :
  ∃ r, is_relevant_image 500 300 = Ok r.
Proof.
  refine (proj2 (proj2 (zero_height_is_analyzed 500)) 300 _).
  vm_compute. reflexivity.
Defined.

End Examples.

(** ** The further properties at work on the small deployment *)

Module MoreExamples.

Import Demo Desk.

(** X2: a run on the two-page document leaves the record of another
    document alone. *)
Lemma parsing_leaves_other_records_witness :
  (FileCache_get pdf_cache (get_pdf_hash (H := hex_libraries) poisoned)
     (parse_pdf (H := hex_libraries) client two_pages fresh).2).1
  = (FileCache_get pdf_cache (get_pdf_hash (H := hex_libraries) poisoned) fresh).1.
Proof.
  refine (proj1 (parsing_leaves_other_records (H := hex_libraries)
                   client two_pages poisoned fresh _ _ _)).
  - vm_compute. reflexivity.
  - vm_compute. reflexivity.
  - vm_compute. discriminate.
Defined.

(** X3 at a thumbnail and at a figure. *)
Lemma square_images_witness :
  is_relevant_image 50 50 = Ok false ∧ is_relevant_image 300 300 = Ok true.
Proof.
  split.
  - refine (proj1 (square_images 50) _). lia.
  - refine (proj2 (square_images 300) _ _).
    + lia.
    + vm_compute. reflexivity.
Defined.

(** X4 at 125 x 100 and 100 x 125. *)
Lemma transposition_asymmetry_witness :
  is_relevant_image 125 100 = Ok true ∧ is_relevant_image 100 125 = Ok false.
Proof. refine (transposition_asymmetry 125 100 _ _ _ _); lia. Defined.


(** X6 on the same run, which composed a document. *)
Lemma parse_pdf_disk_footprint_witness :
  (∀ path, path ≠ cache_file two_pages →
     files (disk two_pages_state) !! path = files (disk fresh) !! path)
  ∧ (disk two_pages_state = disk fresh
     ∨ ∃ pages fc st1,
         cache_miss two_pages fresh = true
         ∧ PdfReader two_pages = Ok pages
         ∧ for_each (page_body client) (enumerate 1 pages) [] fresh = (Ok fc, st1)).
Proof.
  refine (parse_pdf_disk_footprint client two_pages fresh
            (Ok two_pages_response) two_pages_state _).
  vm_compute. reflexivity.
Defined.

(** X7: a cache file holding an empty object, against no cache file. *)
Lemma falsy_record_is_a_miss_witness :
  (parse_pdf client two_pages empty_record).1 = (parse_pdf client two_pages fresh).1.
Proof.
  refine (proj1 (falsy_record_is_a_miss client two_pages empty_record fresh
                   (PyDict []) _ _ _ _ _ _)).
  - vm_compute. reflexivity.
  - vm_compute. reflexivity.
  - reflexivity.
  - reflexivity.
  - vm_compute. reflexivity.
  - reflexivity.
Defined.

(** X8: a cache file holding a list, and one holding an error body. *)
Lemma misshapen_record_blocks_the_pdf_witness :
  parse_pdf client two_pages list_record
  = (Raise (Exception "TypeError"
              (lit "__main__.PDFParseResponse() argument after ** must be a mapping, not list")),
     list_record)
  ∧ parse_pdf client two_pages detail_record
    = (Raise ValidationError_missing, detail_record).
Proof.
  split.
  - refine (proj1 (misshapen_record_blocks_the_pdf client two_pages list_record
                     (PyList [PyInt 1]) _ _) _).
    + vm_compute. reflexivity.
    + vm_compute. reflexivity.
    + intros kvs. discriminate.
  - refine (proj2 (misshapen_record_blocks_the_pdf client two_pages detail_record
                     (PyDict [(lit "detail", PyStr (lit "Not Found"))]) _ _)
              [(lit "detail", PyStr (lit "Not Found"))] _ _).
    + vm_compute. reflexivity.
    + vm_compute. reflexivity.
    + reflexivity.
    + vm_compute. reflexivity.
Defined.

(** X9 at the diagram: raw pixels, sent as a PNG. *)
Lemma payload_of_a_qualifying_image_witness :
  ∃ width height data filter img,
    getitem (xobj_dict diagram) "/Width" = Ok width
    ∧ getitem (xobj_dict diagram) "/Height" = Ok height
    ∧ get_data diagram = Ok data
    ∧ getitem (xobj_dict diagram) "/Filter" = Ok filter
    ∧ is_relevant_image (img_size img).1 (img_size img).2 = Ok true
    ∧ ((pdf_eq_str filter (lit "/FlateDecode") = true
        ∧ Image_frombytes (lit "RGB") (width, height) data = Ok img
        ∧ img_save img (lit "PNG") = Ok [Byte.x2a]
        ∧ lit "image/png" = lit "image/png")
       ∨ (pdf_eq_str filter (lit "/DCTDecode") = true
          ∧ Image_open data = Ok img
          ∧ img_save img (lit "JPEG") = Ok [Byte.x2a]
          ∧ lit "image/png" = lit "image/jpeg")
       ∨ (pdf_eq_str filter (lit "/JPXDecode") = true
          ∧ Image_open data = Ok img
          ∧ img_save img (lit "JP2") = Ok [Byte.x2a]
          ∧ lit "image/png" = lit "image/jp2")).
Proof.
  refine (payload_of_a_qualifying_image diagram [Byte.x2a] (lit "image/png") _).
  vm_compute. reflexivity.
Defined.

(** X10: the photograph is sent whatever size its dictionary declares. *)
Lemma declared_size_matters_for_flate_only_witness :
  prepare photo = prepare mislabelled_photo.
Proof.
  refine (declared_size_matters_for_flate_only photo mislabelled_photo
            (PdfName (lit "/DCTDecode")) _ _ _ _ _ _ _).
  - vm_compute. reflexivity.
  - vm_compute. reflexivity.
  - vm_compute. reflexivity.
  - reflexivity.
  - vm_compute. reflexivity.
  - exists (PdfInt 640), (PdfInt 480). split; vm_compute; reflexivity.
  - exists (PdfInt 1), (PdfInt 1). split; vm_compute; reflexivity.
Defined.

(** X11 at the 32 x 32 icon. *)
Lemma rejected_image_is_skipped_witness :
  xobject_body client 1 icon (page_section 1 (lit "One")) fresh
  = (Ok (page_section 1 (lit "One")), fresh)
  ∧ qualifies icon = false.
Proof.
  refine (rejected_image_is_skipped client 1 icon
            (page_section 1 (lit "One")) fresh _).
  exists (PdfName (lit "/Image")), (PdfInt 32), (PdfInt 32), [Byte.x2a],
    (PdfName (lit "/FlateDecode")), (picture (32, 32) [Byte.x2a]),
    (lit "png"), (lit "image/png").
  split_and!; vm_compute; reflexivity.
Defined.

(** X12 at a form, whose stream cannot be decoded, and at a stream
    without a subtype. *)
Lemma subtype_is_tested_first_witness :
  xobject_body client 1 form (page_section 1 (lit "One")) fresh
  = (Ok (page_section 1 (lit "One")), fresh)
  ∧ for_each (λ obj : pystr * XObject, xobject_body client 1 obj.2)
      [(lit "/X0", untyped); (lit "/Im", diagram)] [] fresh
    = (Raise (KeyError "/Subtype"), fresh).
Proof.
  split.
  - refine (proj1 (subtype_is_tested_first client 1 form
                     (page_section 1 (lit "One")) fresh)
              (PdfName (lit "/Form")) _ _).
    + vm_compute. reflexivity.
    + vm_compute. reflexivity.
  - refine (proj2 (subtype_is_tested_first client 1 untyped [] fresh) _
              (lit "/X0") [(lit "/Im", diagram)]).
    vm_compute. reflexivity.
Defined.

(** X13 on the two-page document. *)
Lemma document_begins_with_first_header_witness :
  lit "--- Page 1 ---" `prefix_of` content two_pages_response.
Proof.
  refine (proj1 (document_begins_with_first_header client two_pages fresh
                   two_pages_response two_pages_state
                   [text_page "Hello"; image_page "World" [diagram]] _ _ _) _).
  - vm_compute. reflexivity.
  - vm_compute. reflexivity.
  - vm_compute. reflexivity.
  - discriminate.
Defined.

(** X14: plain text is turned away unread, and a PDF whose body cannot be
    read fails outside the handler. *)
Lemma upload_is_checked_before_parsing_witness :
  parse_pdf_endpoint client text_upload fresh
  = (HTTPException 400 (lit "Invalid document type. Please upload a PDF file."),
     fresh)
  ∧ parse_pdf_endpoint client broken_upload fresh = (Uncaught connection_lost, fresh).
Proof.
  split.
  - refine (proj1 (upload_is_checked_before_parsing client text_upload fresh) _).
    vm_compute. discriminate.
  - refine (proj1 (proj2 (upload_is_checked_before_parsing client broken_upload
                            fresh) _) connection_lost _).
    + vm_compute. reflexivity.
    + reflexivity.
Defined.

(** X15 with a client that raises on every image. *)
Lemma analyzer_cannot_fail_the_request_witness :
  ∃ r st', parse_pdf_endpoint failing_client pdf_upload fresh = (Returned r, st').
Proof.
  refine (analyzer_cannot_fail_the_request failing_client pdf_upload two_pages
            [text_page "Hello"; image_page "World" [diagram]] fresh _ _ _ _ _ _).
  - vm_compute. reflexivity.
  - reflexivity.
  - vm_compute. reflexivity.
  - vm_compute. reflexivity.
  - constructor.
    + split; [by exists (lit "Hello")|]. intros xObject. discriminate.
    + constructor; [|constructor].
      split; [by exists (lit "World")|]. intros xObject [= <-].
      constructor; [|constructor].
      exists (Some ([Byte.x2a], lit "image/png")). vm_compute. reflexivity.
  - vm_compute. reflexivity.
Defined.

(** X16 with the key of the small deployment. *)
Lemma request_of_a_qualifying_image_witness :
  ∃ api_key,
    toy_getenv "ANTHROPIC_API_KEY" = Some api_key
    ∧ api_key ≠ []
    ∧ let reply :=
        toy_anthropic api_key (analysis_prompt (page_section 1 (lit "One")))
          (lit "image/png") (toy_b64encode [Byte.x2a]) (world fresh) in
      let analysis :=
        match reply.1 with
        | Ok (text :: _) => text
        | Ok [] => lit "No analysis available"
        | Raise e => lit "Error analyzing image: " ++ str_of_exn e
        end in
      xobject_body toy_client 1 diagram (page_section 1 (lit "One")) fresh
      = (Ok (page_section 1 (lit "One") ++ nl ++ nl
             ++ lit "--- Image Analysis (Page 1) ---" ++ nl ++ nl ++ analysis ++ nl),
         {| world := reply.2;
            disk := disk fresh;
            calls := calls fresh
                     ++ [{| call_image_data := [Byte.x2a];
                            call_media_type := lit "image/png";
                            call_context := page_section 1 (lit "One") |}] |}).
Proof.
  refine (request_of_a_qualifying_image toy_getenv toy_b64encode toy_anthropic
            toy_client 1 diagram [Byte.x2a] (lit "image/png")
            (page_section 1 (lit "One")) fresh _ _).
  - reflexivity.
  - vm_compute. reflexivity.
Defined.

(** X17: the service answers with an error body. *)
Lemma error_body_crashes_the_script_witness :
  main later_run
  = (Raise (TypeError_concatenate PyNone),
     {| services := 6%nat; stdout := [lit "Making request"] |}).
Proof.
  refine (error_body_crashes_the_script later_run [Byte.x01]
            {| json := Ok error_body |} 6%nat error_body PyNone _ _ _ _ _).
  - reflexivity.
  - vm_compute. reflexivity.
  - reflexivity.
  - vm_compute. reflexivity.
  - intros s. discriminate.
Defined.

(** X18: the service answers with a document. *)
Lemma script_output_witness :
  ∃ f response w body s review choices w',
    open_rb (lit "/Users/adeelqureshi/Downloads/erd.pdf") = Ok f
    ∧ requests_post (lit "http://localhost:8000/parse-pdf") f (services first_run)
      = (Ok response, w)
    ∧ json response = Ok body
    ∧ json_get_content body = Ok (PyStr s)
    ∧ chat_completions_create (lit "gpt-4o") (review_request s) w
      = (Ok (review :: choices), w')
    ∧ {| services := 2%nat;
         stdout := [lit "Making request"; lit "Looks good."] |}
      = {| services := w';
           stdout := stdout first_run ++ [lit "Making request"; printed review] |}.
Proof.
  refine (proj1 (script_output first_run (Ok ())
                   {| services := 2%nat;
                      stdout := [lit "Making request"; lit "Looks good."] |} _)
            eq_refl).
  vm_compute. reflexivity.
Defined.

End MoreExamples.
